(** * The "sp" server command of Source.Python: core/command.py

  A shallow embedding of [_CoreCommandManager] (the sub-commands
  [list], [delay], [dump], [version], [docs] and [credits]) together
  with the properties of its reports and of its Sphinx project
  life cycle.

  Python text is modelled by [string]: a character is a code point
  below 256.  Python integers are [Z].  Everything the module imports
  (paths, the version, the logger, the Sphinx tooling, the dump
  functions, the tick scheduler) is gathered in the record [Imports];
  the mutable surroundings (the disk, what was logged, which external
  calls were made) live in [World]. *)

From Stdlib Require Import ZArith Lia Ascii.
From stdpp Require Import gmap strings list sorting.

Local Open Scope Z_scope.

(** ** Python strings *)

Module PyStr.

Definition LF : ascii := "010"%char.
Definition nl : string := String LF EmptyString.
Definition tab : string := String "009"%char EmptyString.
(** The double quote character, as a one-character string. *)
Definition dq : string := String "034"%char EmptyString.

(** [len(s)] *)
Definition len (s : string) : Z := Z.of_nat (String.length s).

Fixpoint copies (s : string) (n : nat) : string :=
  match n with
  | O => EmptyString
  | S k => s +:+ copies s k
  end.

(** [s * n]: a count that is zero or negative gives the empty string. *)
Definition mul (s : string) (n : Z) : string := copies s (Z.to_nat n).

(** [s.startswith(pre)] *)
Definition startswith (s pre : string) : bool := String.prefix pre s.

(** [s.startswith((p1, p2, ...))] *)
Definition startswith_any (s : string) (pres : list string) : bool :=
  existsb (startswith s) pres.

(** [s.endswith(suf)] *)
Definition endswith (s suf : string) : bool :=
  String.prefix (String.rev suf) (String.rev s).

(** [sep.join(l)] *)
Fixpoint join (sep : string) (l : list string) : string :=
  match l with
  | [] => EmptyString
  | [x] => x
  | x :: l' => x +:+ sep +:+ join sep l'
  end.

(** [""] [.join(l)] *)
Fixpoint cat (l : list string) : string :=
  match l with
  | [] => EmptyString
  | x :: l' => x +:+ cat l'
  end.

(** [str.isspace] on one character: code points 9-13, 28-32, 133, 160. *)
Definition isspace (c : ascii) : bool :=
  let n := N_of_ascii c in
  ((9 <=? n) && (n <=? 13) || (28 <=? n) && (n <=? 32)
   || (n =? 133) || (n =? 160))%N.

(** [s.lstrip()] *)
Fixpoint lstrip (s : string) : string :=
  match s with
  | EmptyString => EmptyString
  | String c s' => if isspace c then lstrip s' else s
  end.

(** The longest prefix without white space, and what follows it. *)
Fixpoint span_word (s : string) : string * string :=
  match s with
  | EmptyString => (EmptyString, EmptyString)
  | String c s' =>
      if isspace c then (EmptyString, s)
      else let '(w, r) := span_word s' in (String c w, r)
  end.

(** [s.split(maxsplit=1)]: split on runs of white space, at most once. *)
Definition split_maxsplit1 (s : string) : list string :=
  match lstrip s with
  | EmptyString => []
  | t =>
      let '(w, r) := span_word t in
      match lstrip r with
      | EmptyString => [w]
      | r' => [w; r']
      end
  end.

(** [s.replace(old, new)] for a non-empty [old]: scan from the left;
    at an occurrence of [old] emit [new] and jump over the occurrence
    ([skip] counts the characters of it still to jump over), otherwise
    copy one character. *)
Fixpoint replace_go (old new : string) (skip : nat) (s : string) : string :=
  match s with
  | EmptyString => EmptyString
  | String c s' =>
      match skip with
      | S k => replace_go old new k s'
      | O =>
          if String.prefix old s
          then new +:+ replace_go old new (String.length old - 1) s'
          else String c (replace_go old new O s')
      end
  end.

Definition replace (s old new : string) : string := replace_go old new O s.

(** [f.readlines()] on the text of a file: the lines, each with its
    line feed; a last line without one is kept as it is. *)
Fixpoint readlines (s : string) : list string :=
  match s with
  | EmptyString => []
  | String c s' =>
      if Ascii.eqb c LF then String c EmptyString :: readlines s'
      else match readlines s' with
           | [] => [String c EmptyString]
           | l :: ls => String c l :: ls
           end
  end.

(** [old] occurs in [s]. *)
Definition occurs (old s : string) : Prop :=
  exists a b, s = a +:+ old +:+ b.

(** No character of [s] is white space. *)
Fixpoint no_space (s : string) : bool :=
  match s with
  | EmptyString => true
  | String c s' => negb (isspace c) && no_space s'
  end.

End PyStr.

(** ** The surroundings of the module *)

(** An entry of a directory. *)
Inductive node : Type :=
  | File (data : string)
  | Directory.

(** The disk: each existing directory, by its path, with its entries by
  name.  A file holds the text that a text-mode [open] reads from it:
  the bytes behind that text, and what reading and writing do to the
  line ends, are in [TextMode] below.  Every directory can be listed
  and every file decodes: a regular file where a directory is looked
  for, a directory or file without permission and bytes that do not
  decode are not on this disk. *)
Abbreviation disk_t := (gmap string (gmap string node)).

(** What Python raises. [ToolError] stands for whatever the Sphinx
  tooling or a dump function raises.  Of the errors of the operating
  system only the two that the disk above can produce are here; Python
  has more ([NotADirectoryError], [PermissionError]) and
  [UnicodeDecodeError] for a file that does not decode. *)
Inductive exn : Type :=
  | FileNotFoundError (path : string)
  | IsADirectoryError (path : string)
  | IndexError
  | KeyError (key : string)
  | ValueError (text : string)
  | ToolError (what : string).

(** [autodoc.SphinxProject(package_dir, project_dir)] *)
Record SphinxProject : Type := mkProject {
  package_dir : string;
  project_dir : string
}.

Inductive verb : Type := Create | Generate | Build.

(** One invocation of the Sphinx tooling: which method, on which
  project, with which arguments, and what it raised (if anything). *)
Record sphinx_call : Type := mkCall {
  call_verb : verb;
  call_project : SphinxProject;
  call_args : list string;
  call_raised : option exn
}.

(** A value of a [PluginInfo]: a [ConVar] or anything else, the latter
  by the text [str.format] gives it. *)
Inductive info_value : Type :=
  | Plain (text : string)
  | ConVar (get_name get_help_text get_string : string).

(** [PluginInfo]: an ordered dictionary, by its items. *)
Abbreviation PluginInfo := (list (string * info_value)).

(** [credits.ini] as [ConfigObj] gives it: groups in order, each with
  its names and their roles in order. *)
Abbreviation credits_t := (list (string * list (string * string))).

(** What [command.py] imports.  The methods of [SphinxProject], the dump
  functions and [ConfigObj] act on the disk; [float] is the builtin
  conversion, [None] standing for its [ValueError]. *)
Record Imports : Type := mkImports {
  VERSION : string;
  SP_DOCS_PATH : string;
  CUSTOM_PACKAGES_DOCS_PATH : string;
  PLUGIN_DOCS_PATH : string;
  SP_PACKAGES_PATH : string;
  CUSTOM_PACKAGES_PATH : string;
  PLUGIN_PATH : string;
  SP_DATA_PATH : string;
  (** [self.prefix] and [_plugin_strings[...].get_string()] *)
  prefix : string;
  Plugins_string : string;
  Credits_string : string;
  (** [dumps.__all__] and [getattr(dumps, name)(filename)] *)
  dumps_all : list string;
  dumps_call : string -> string -> disk_t -> option exn * disk_t;
  (** [float(token)] *)
  duration : Type;
  float : string -> option duration;
  (** [ConfigObj(path, encoding='unicode_escape')] *)
  ConfigObj : string -> disk_t -> credits_t;
  (** the methods and attributes of a [SphinxProject] *)
  project_exists : SphinxProject -> disk_t -> bool;
  project_source_dir : SphinxProject -> string;
  sphinx_create : SphinxProject -> list string -> disk_t -> option exn * disk_t;
  sphinx_generate_project_files : SphinxProject -> disk_t -> option exn * disk_t;
  sphinx_build : SphinxProject -> disk_t -> option exn * disk_t
}.

(** The state the commands read and change.  Lists grow at the end. *)
Record World (I : Imports) : Type := mkWorld {
  disk : disk_t;
  (** [core_plugin_manager]: loaded plugins in load order, each with the
    [info] of its instance ([None] when it has none) *)
  manager : list (string * option PluginInfo);
  (** the messages given to [logger.log_message] *)
  logged : list string;
  (** the calls of [create], [generate_project_files] and [build] *)
  sphinx_calls : list sphinx_call;
  (** the calls of a dump function: its name and the file name *)
  dump_calls : list (string * string);
  (** [tick_delays.delay(d, engine_server.server_command, text)] *)
  delays : list (duration I * string)
}.
Arguments mkWorld {I}.
Arguments disk {I}.
Arguments manager {I}.
Arguments logged {I}.
Arguments sphinx_calls {I}.
Arguments dump_calls {I}.
Arguments delays {I}.

(** ** Commands: state passing with exceptions *)

Inductive outcome (A : Type) : Type :=
  | Returns (a : A)
  | Raises (e : exn).
Arguments Returns {A}.
Arguments Raises {A}.

Definition M (I : Imports) (A : Type) : Type := World I -> outcome A * World I.

Section Monad.
Context {I : Imports}.

Definition ret {A} (a : A) : M I A := fun w => (Returns a, w).

Definition raise {A} (e : exn) : M I A := fun w => (Raises e, w).

Definition bind {A B} (m : M I A) (k : A -> M I B) : M I B :=
  fun w =>
    match m w with
    | (Returns a, w') => k a w'
    | (Raises e, w') => (Raises e, w')
    end.

(** [try: body / except: handler / else: orelse] with a bare
    [except]: every exception of [body] is handled; those of
    [handler] and [orelse] are not. *)
Definition try_except_else (body handler orelse : M I unit) : M I unit :=
  fun w =>
    match body w with
    | (Returns _, w') => orelse w'
    | (Raises _, w') => handler w'
    end.

(** [for x in l: body x] *)
Fixpoint for_each {A} (l : list A) (body : A -> M I unit) : M I unit :=
  match l with
  | [] => ret tt
  | x :: l' => bind (body x) (fun _ => for_each l' body)
  end.

Definition get_disk : M I disk_t := fun w => (Returns (disk w), w).

Definition set_disk (d : disk_t) : M I unit :=
  fun w => (Returns tt,
            mkWorld d (manager w) (logged w) (sphinx_calls w)
                    (dump_calls w) (delays w)).

(** [self.logger.log_message(msg)] *)
Definition log_message (msg : string) : M I unit :=
  fun w => (Returns tt,
            mkWorld (disk w) (manager w) (logged w ++ [msg])
                    (sphinx_calls w) (dump_calls w) (delays w)).

End Monad.

Notation "'do' x <- m ; k" := (bind m (fun x => k))
  (at level 10, x name, m at level 100, k at level 200,
   format "'[v' 'do'  x  <-  m ; '/' k ']'").

(** ** The path library, on the modelled disk *)

(** The path of an entry: its directory and its name in it. *)
Abbreviation entry_path := (string * string)%type (only parsing).

Module Path.

(** [d / name] for a relative [name], as the path of a directory. *)
Definition join (d name : string) : string := d +:+ "/" +:+ name.

(** The part of [s] before its last dot, if it has a dot. *)
Fixpoint before_last_dot (s : string) : option string :=
  match s with
  | EmptyString => None
  | String c s' =>
      match before_last_dot s' with
      | Some r => Some (String c r)
      | None => if Ascii.eqb c "."%char then Some EmptyString else None
      end
  end.

Fixpoint all_dots (s : string) : bool :=
  match s with
  | EmptyString => true
  | String c s' => Ascii.eqb c "."%char && all_dots s'
  end.

(** [p.namebase]: the name without its extension; leading dots start
    no extension. *)
Definition namebase (p : entry_path) : string :=
  match before_last_dot p.2 with
  | Some r => if all_dots r then p.2 else r
  | None => p.2
  end.

Section Disk.
Context {I : Imports}.

Definition lookup_entry (d : disk_t) (p : entry_path) : option node :=
  match d !! p.1 with
  | Some entries => entries !! p.2
  | None => None
  end.

(** [d.listdir()], for a directory that is on the disk or for a path
    at which the disk has nothing. *)
Definition listdir (d : string) : M I (list entry_path) :=
  fun w =>
    match disk w !! d with
    | Some entries => (Returns ((fun e => (d, e.1)) <$> map_to_list entries), w)
    | None => (Raises (FileNotFoundError d), w)
    end.

Definition isdir (dk : disk_t) (p : entry_path) : bool :=
  match lookup_entry dk p with Some Directory => true | _ => false end.

Definition isfile (dk : disk_t) (p : entry_path) : bool :=
  match lookup_entry dk p with Some (File _) => true | _ => false end.

(** [d.dirs()] *)
Definition dirs (d : string) : M I (list entry_path) :=
  do ps <- listdir d;
  do dk <- get_disk;
  ret (filter (fun p => isdir dk p = true) ps).

(** [d.files('*' + suffix)] *)
Definition files (d suffix : string) : M I (list entry_path) :=
  do ps <- listdir d;
  do dk <- get_disk;
  ret (filter (fun p => isfile dk p = true)
         (filter (fun p => PyStr.endswith p.2 suffix = true) ps)).

(** [with p.open() as f: data = f.read()]: the text of the file, as
    text mode decodes it. *)
Definition read_text (p : entry_path) : M I string :=
  fun w =>
    match lookup_entry (disk w) p with
    | Some (File data) => (Returns data, w)
    | Some Directory => (Raises (IsADirectoryError (join p.1 p.2)), w)
    | None => (Raises (FileNotFoundError (join p.1 p.2)), w)
    end.

Definition store (dk : disk_t) (p : entry_path) (data : string) : disk_t :=
  match dk !! p.1 with
  | Some entries => <[p.1 := <[p.2 := File data]> entries]> dk
  | None => dk
  end.

(** [p.open('w')]: the file is created or emptied. *)
Definition open_w (p : entry_path) : M I unit :=
  fun w =>
    match disk w !! p.1 with
    | None => (Raises (FileNotFoundError (join p.1 p.2)), w)
    | Some entries =>
        match entries !! p.2 with
        | Some Directory => (Raises (IsADirectoryError (join p.1 p.2)), w)
        | _ => set_disk (store (disk w) p EmptyString) w
        end
    end.

(** [f.write(text)] on a file opened by [open_w]: [text] goes to its end. *)
Definition write (p : entry_path) (text : string) : M I unit :=
  fun w =>
    match lookup_entry (disk w) p with
    | Some (File data) => set_disk (store (disk w) p (data +:+ text)) w
    | Some Directory => (Raises (IsADirectoryError (join p.1 p.2)), w)
    | None => (Raises (FileNotFoundError (join p.1 p.2)), w)
    end.

End Disk.
End Path.

(** ** [_CoreCommandManager] *)

Section CoreCommandManager.
Context (I : Imports).
Import PyStr.

(** *** External calls *)

(** A method of a [SphinxProject] that acts on the disk: the call is
    recorded with what it raised, and an exception is raised on. *)
Definition sphinx (v : verb) (project : SphinxProject) (args : list string)
    (run : disk_t -> option exn * disk_t) : M I unit :=
  fun w =>
    let '(r, d') := run (disk w) in
    let w' := mkWorld d' (manager w) (logged w)
                (sphinx_calls w ++ [mkCall v project args r])
                (dump_calls w) (delays w) in
    match r with
    | None => (Returns tt, w')
    | Some e => (Raises e, w')
    end.

(** [project.project_exists()] *)
Definition exists_ (project : SphinxProject) : M I bool :=
  do d <- get_disk; ret (project_exists I project d).

(** [project.create(...)] *)
Definition create (project : SphinxProject) (args : list string) : M I unit :=
  sphinx Create project args (sphinx_create I project args).

(** [project.generate_project_files()] *)
Definition generate_project_files (project : SphinxProject) : M I unit :=
  sphinx Generate project [] (sphinx_generate_project_files I project).

(** [project.build()] *)
Definition build (project : SphinxProject) : M I unit :=
  sphinx Build project [] (sphinx_build I project).

(** [getattr(dumps, name)(filename)] *)
Definition dumps_getattr_call (name filename : string) : M I unit :=
  fun w =>
    let '(r, d') := dumps_call I name filename (disk w) in
    let w' := mkWorld d' (manager w) (logged w) (sphinx_calls w)
                (dump_calls w ++ [(name, filename)]) (delays w) in
    match r with
    | None => (Returns tt, w')
    | Some e => (Raises e, w')
    end.

(** [tick_delays.delay(d, engine_server.server_command, text)] *)
Definition tick_delays_delay (d : duration I) (text : string) : M I unit :=
  fun w =>
    (Returns tt,
     mkWorld (disk w) (manager w) (logged w) (sphinx_calls w)
       (dump_calls w) (delays w ++ [(d, text)])).

(** *** [print_plugins] *)

(** The rule of 61 equal signs. *)
Definition rule : string := mul "=" 61.

(** [d[key]] on a dictionary given by its items. *)
Fixpoint getitem {V} (d : list (string * V)) (key : string) : option V :=
  match d with
  | [] => None
  | (k, v) :: d' => if String.eqb key k then Some v else getitem d' key
  end.

(** The text added for one item of a [PluginInfo]. *)
Definition item_text (item : string) (value : info_value) : string :=
  let value :=
    match value with
    | ConVar name help text =>
        name +:+ ":" +:+ nl +:+ tab +:+ tab +:+ tab +:+ help +:+ ": " +:+ text
    | Plain text => text
    end in
  tab +:+ item +:+ ":" +:+ nl +:+ tab +:+ tab +:+ value +:+ nl.

(** The loop over [info.items()]. *)
Fixpoint items_loop (items : PluginInfo) (message : string) : string :=
  match items with
  | [] => message
  | (item, value) :: items' => items_loop items' (message +:+ item_text item value)
  end.

(** The loop over [sorted(self.manager)]. *)
Fixpoint plugins_loop (mgr : list (string * option PluginInfo))
    (names : list string) (message : string) : outcome string :=
  match names with
  | [] => Returns message
  | plugin_name :: names' =>
      match getitem mgr plugin_name with
      | None => Raises (KeyError plugin_name)
      | Some info =>
          let message :=
            match info with
            | Some items => items_loop items (message +:+ plugin_name +:+ ":" +:+ nl)
            | None => message +:+ plugin_name +:+ nl
            end in
          plugins_loop mgr names' (message +:+ nl)
      end
  end.

(** [sorted(names)]: by code points. *)
Definition sorted (names : list string) : list string :=
  merge_sort String.le names.

Definition print_plugins : M I unit :=
  fun w =>
    let message :=
      prefix I +:+ Plugins_string I +:+ nl +:+ mul "=" 61 +:+ nl +:+ nl in
    match plugins_loop (manager w) (sorted (manager w).*1) message with
    | Raises e => (Raises e, w)
    | Returns message => log_message (message +:+ mul "=" 61) w
    end.

(** *** [delay_execution], [dump_data], [print_version] *)

Definition delay_execution (args : list string) : M I unit :=
  match args with
  | [] => raise IndexError
  | token :: command =>
      match float I token with
      | None => raise (ValueError token)
      | Some d => tick_delays_delay d (join " " command +:+ nl)
      end
  end.

Definition dump_data (dump_type filename : string) : M I unit :=
  if negb (bool_decide ("dump_" +:+ dump_type ∈ dumps_all I)) then
    do _ <- log_message ("Invalid dump_type " +:+ dq +:+ dump_type +:+ dq
                         +:+ ". The valid types are:");
    for_each (dumps_all I)
      (fun dump => log_message (tab +:+ replace dump "dump_" EmptyString))
  else
    dumps_getattr_call ("dump_" +:+ dump_type) filename.

Definition print_version : M I unit :=
  log_message ("Current Source.Python version: " +:+ VERSION I).

(** *** The category tests *)

Definition is_source_python (package : string) : bool :=
  bool_decide (package = "source-python").

Definition is_custom_package (package : string) : M I bool :=
  do ps <- Path.listdir (CUSTOM_PACKAGES_PATH I);
  ret (bool_decide (package ∈ Path.namebase <$> ps)).

Definition is_plugin (package : string) : M I bool :=
  do ps <- Path.dirs (PLUGIN_PATH I);
  ret (bool_decide (package ∈ Path.namebase <$> ps)).

(** *** [create] *)

Definition _create_source_python_docs : M I unit :=
  let project := mkProject (SP_PACKAGES_PATH I) (SP_DOCS_PATH I) in
  do e <- exists_ project;
  if e then
    log_message "Sphinx project already exists for Source.Python"
  else
    try_except_else
      (create project
         ["Source.Python Development Team"; "Source.Python"; VERSION I])
      (log_message
         "An occured while creating Sphinx project for Source.Python.")
      (log_message "Sphinx project has been created for Source.Python.").

Definition _create_custom_package_docs (package : string) : M I unit :=
  let project := mkProject (Path.join (CUSTOM_PACKAGES_PATH I) package)
                   (Path.join (CUSTOM_PACKAGES_DOCS_PATH I) package) in
  do e <- exists_ project;
  if e then
    log_message ("Sphinx project already exists for custom package "
                 +:+ dq +:+ package +:+ dq +:+ ".")
  else
    try_except_else
      (create project ["Unknown"])
      (log_message
         ("An error occured while creating Sphinx project for custom package "
          +:+ dq +:+ package +:+ dq +:+ "."))
      (log_message ("Sphinx project has been created for custom package "
                    +:+ dq +:+ package +:+ dq +:+ ".")).

Definition _create_plugin_docs (package : string) : M I unit :=
  let project := mkProject (Path.join (PLUGIN_PATH I) package)
                   (Path.join (PLUGIN_DOCS_PATH I) package) in
  do e <- exists_ project;
  if e then
    log_message ("Sphinx project already exists for plugin "
                 +:+ dq +:+ package +:+ dq +:+ ".")
  else
    try_except_else
      (create project ["Unknown"])
      (log_message
         ("An error occured while creating Sphinx project for plugin "
          +:+ dq +:+ package +:+ dq +:+ "."))
      (log_message ("Sphinx project has been created for plugin "
                    +:+ dq +:+ package +:+ dq +:+ ".")).

(** *** [generate] *)

(** The body of the loop over the [*.rst] files. *)
Definition strip_module_path (file_path : entry_path) : M I unit :=
  do data <- Path.read_text file_path;
  do _ <- Path.open_w file_path;
  Path.write file_path (replace data "source-python." EmptyString).

Definition _generate_source_python_docs : M I unit :=
  let project := mkProject (SP_PACKAGES_PATH I) (SP_DOCS_PATH I) in
  do e <- exists_ project;
  if e then
    try_except_else
      (generate_project_files project)
      (log_message
         "An error occured while generating project files for Source.Python")
      (do fs <- Path.files (project_source_dir I project) ".rst";
       do _ <- for_each fs strip_module_path;
       log_message "Project files have been generated for Source.Python.")
  else
    log_message "Sphinx project does not exist for Source.Python.".

Definition _generate_custom_package_docs (package : string) : M I unit :=
  let project := mkProject (Path.join (CUSTOM_PACKAGES_PATH I) package)
                   (Path.join (CUSTOM_PACKAGES_DOCS_PATH I) package) in
  do e <- exists_ project;
  if e then
    try_except_else
      (generate_project_files project)
      (log_message
         ("An error occured while generating project files for custom package "
          +:+ dq +:+ package +:+ dq +:+ "."))
      (log_message ("Project files have been generated for custom package "
                    +:+ dq +:+ package +:+ dq +:+ "."))
  else
    log_message ("Sphinx project does not exist for custom package "
                 +:+ dq +:+ package +:+ dq +:+ ".").

Definition _generate_plugin_docs (package : string) : M I unit :=
  let project := mkProject (Path.join (PLUGIN_PATH I) package)
                   (Path.join (PLUGIN_DOCS_PATH I) package) in
  do e <- exists_ project;
  if e then
    try_except_else
      (generate_project_files project)
      (log_message
         ("An error occured while generating project files for plugin "
          +:+ dq +:+ package +:+ dq +:+ "."))
      (log_message ("Project files have been generated for plugin "
                    +:+ dq +:+ package +:+ dq +:+ "."))
  else
    log_message ("Sphinx project does not exist for plugin "
                 +:+ dq +:+ package +:+ dq +:+ ".").

(** *** [build] *)

(** [l[0]] *)
Definition first (l : list string) : M I string :=
  match l with
  | [] => raise IndexError
  | x :: _ => ret x
  end.

(** The body of the loop over the lines of [conf.py]. *)
Definition update_version_line (conf_file : entry_path) (line : string) : M I unit :=
  do line <-
    (if startswith_any line ["version"; "release"] then
       do word <- first (split_maxsplit1 line);
       ret (word +:+ " = ' " +:+ VERSION I +:+ "'" +:+ nl)
     else ret line);
  Path.write conf_file line.

Definition _build_source_python_docs : M I unit :=
  let project := mkProject (SP_PACKAGES_PATH I) (SP_DOCS_PATH I) in
  do e <- exists_ project;
  if e then
    let conf_file := (project_source_dir I project, "conf.py") in
    do data <- Path.read_text conf_file;
    let lines := readlines data in
    do _ <- Path.open_w conf_file;
    do _ <- for_each lines (update_version_line conf_file);
    try_except_else
      (build project)
      (log_message
         "An error occured while building project files for Source.Python.")
      (log_message "Project files have been built for Source.Python.")
  else
    log_message "Sphinx project does not exist for Source.Python.".

Definition _build_custom_package_docs (package : string) : M I unit :=
  let project := mkProject (Path.join (CUSTOM_PACKAGES_PATH I) package)
                   (Path.join (CUSTOM_PACKAGES_DOCS_PATH I) package) in
  do e <- exists_ project;
  if e then
    try_except_else
      (build project)
      (log_message
         ("An error occured while building project files for custom package "
          +:+ dq +:+ package +:+ dq +:+ "."))
      (log_message ("Project files have been built for custom package "
                    +:+ dq +:+ package +:+ dq +:+ "."))
  else
    log_message ("Sphinx project does not exist for custom package "
                 +:+ dq +:+ package +:+ dq +:+ ".").

Definition _build_plugin_docs (package : string) : M I unit :=
  let project := mkProject (Path.join (PLUGIN_PATH I) package)
                   (Path.join (PLUGIN_DOCS_PATH I) package) in
  do e <- exists_ project;
  if e then
    try_except_else
      (build project)
      (log_message
         ("An error occured while building project files for plugin "
          +:+ dq +:+ package +:+ dq +:+ "."))
      (log_message ("Project files have been built for plugin "
                    +:+ dq +:+ package +:+ dq +:+ "."))
  else
    log_message ("Sphinx project does not exist for plugin "
                 +:+ dq +:+ package +:+ dq +:+ ".").

(** *** The three verbs and [docs_handler] *)

Definition not_a_package (package : string) : string :=
  dq +:+ package +:+ dq
  +:+ " is not source-python, a custom package or a plugin.".

Definition _create_sphinx_project (package : string) : M I unit :=
  if is_source_python package then _create_source_python_docs
  else
    do c <- is_custom_package package;
    if c then _create_custom_package_docs package
    else
      do p <- is_plugin package;
      if p then _create_plugin_docs package
      else log_message (not_a_package package).

Definition _generate_sphinx_project (package : string) : M I unit :=
  if is_source_python package then _generate_source_python_docs
  else
    do c <- is_custom_package package;
    if c then _generate_custom_package_docs package
    else
      do p <- is_plugin package;
      if p then _generate_plugin_docs package
      else log_message (not_a_package package).

Definition _build_sphinx_project (package : string) : M I unit :=
  if is_source_python package then _build_source_python_docs
  else
    do c <- is_custom_package package;
    if c then _build_custom_package_docs package
    else
      do p <- is_plugin package;
      if p then _build_plugin_docs package
      else log_message (not_a_package package).

Definition docs_handler (action package : string) : M I unit :=
  if String.eqb action "create" then _create_sphinx_project package
  else if String.eqb action "generate" then _generate_sphinx_project package
  else if String.eqb action "build" then _build_sphinx_project package
  else
    log_message ("Invalid action: " +:+ dq +:+ action +:+ dq
                 +:+ ". Valid action are: create, generate and build").

(** *** [print_credits] *)

(** The loop over the names of a group. *)
Fixpoint names_loop (names : list (string * string)) (message : string) : string :=
  match names with
  | [] => message
  | (name, role) :: names' =>
      names_loop names'
        (message +:+ tab +:+ tab +:+ name +:+ mul " " (20 - len name)
         +:+ role +:+ nl)
  end.

(** The loop over the groups. *)
Fixpoint groups_loop (groups : credits_t) (message : string) : string :=
  match groups with
  | [] => message
  | (group, names) :: groups' =>
      let message := message +:+ tab +:+ group +:+ ":" +:+ nl in
      let message := names_loop names message in
      groups_loop groups' (message +:+ nl)
  end.

Definition print_credits : M I unit :=
  let message :=
    prefix I +:+ Credits_string I +:+ nl +:+ mul "=" 61 +:+ nl +:+ nl in
  do d <- get_disk;
  let groups := ConfigObj I (Path.join (SP_DATA_PATH I) "credits.ini") d in
  let message := groups_loop groups message in
  log_message (message +:+ mul "=" 61 +:+ nl +:+ nl).

End CoreCommandManager.

(** ** Frame conditions *)

(** [w'] differs from [w] at most on the disk. *)
Definition same_but_disk {I} (w w' : World I) : Prop :=
  manager w' = manager w /\ logged w' = logged w
  /\ sphinx_calls w' = sphinx_calls w /\ dump_calls w' = dump_calls w
  /\ delays w' = delays w.

(** A command that acts on the disk only, whatever it returns or raises. *)
Definition disk_only {I A} (m : M I A) : Prop :=
  forall w, same_but_disk w (m w).2.

(** [w] with the disk [d]. *)
Definition with_disk {I} (w : World I) (d : disk_t) : World I :=
  mkWorld d (manager w) (logged w) (sphinx_calls w) (dump_calls w) (delays w).

(** [old] occurs in [s], decided. *)
Fixpoint occursb (old s : string) : bool :=
  String.prefix old s
  || match s with
     | EmptyString => false
     | String _ s' => occursb old s'
     end.

(** The word a failure report uses for a verb. *)
Definition gerund (v : verb) : string :=
  match v with
  | Create => "creating"
  | Generate => "generating"
  | Build => "building"
  end.

(** The run [r] of a command from [w] keeps every exception of the
    Sphinx tooling inside: it records the Sphinx calls [cs], and if one
    of them raised then the command returned, and logged exactly one
    message, which has the word for the verb of the call and [named]. *)
Definition caught {I} (named : string) (w : World I)
    (r : outcome unit * World I) : Prop :=
  exists cs, sphinx_calls r.2 = sphinx_calls w ++ cs
    /\ forall c e, c ∈ cs -> call_raised c = Some e ->
         r.1 = Returns tt
         /\ exists msg, logged r.2 = logged w ++ [msg]
              /\ PyStr.occurs (gerund (call_verb c)) msg
              /\ PyStr.occurs named msg.

(** The run [r] of a command from [w] made no Sphinx call, left the
    disk alone, returned, and logged exactly one message, which has the
    words [what]. *)
Definition only_reports {I} (what : string) (w : World I)
    (r : outcome unit * World I) : Prop :=
  exists msg,
    r = (Returns tt,
         mkWorld (disk w) (manager w) (logged w ++ [msg]) (sphinx_calls w)
           (dump_calls w) (delays w))
    /\ PyStr.occurs what msg.

(** ** The layout of the reports, as specified *)

Module Layout.
Import PyStr.

(** The record of one plugin in the list: its name, then the items of
    its information when it has one. *)
Definition plugin_record (e : string * option PluginInfo) : string :=
  match e with
  | (name, Some items) =>
      name +:+ ":" +:+ nl +:+ cat ((fun iv => item_text iv.1 iv.2) <$> items)
  | (name, None) => name +:+ nl
  end.

(** The list: prefix and title, a rule, a blank line, the records each
    followed by a blank line, and the closing rule. *)
Definition plugins_report (prefix title : string)
    (entries : list (string * option PluginInfo)) : string :=
  prefix +:+ title +:+ nl +:+ rule +:+ nl +:+ nl
  +:+ cat ((fun e => plugin_record e +:+ nl) <$> entries) +:+ rule.

(** The line written back for a line of [conf.py]: a line that starts
    with version or release becomes its first word, an equal sign and the
    version between quotes after a space; any other line is kept. *)
Definition conf_line (version line : string) : string :=
  if startswith_any line ["version"; "release"]
  then (span_word line).1 +:+ " = ' " +:+ version +:+ "'" +:+ nl
  else line.

End Layout.

(** ** A small installation, for examples *)

Module Demo.
Import PyStr.

(** A stand-in for [float]: unsigned decimal integers only. *)
Fixpoint digits (s : string) (acc : N) : option N :=
  match s with
  | EmptyString => Some acc
  | String c s' =>
      match Ascii.is_nat c with
      | Some d => digits s' (10 * acc + N.of_nat d)%N
      | None => None
      end
  end.

Definition parse_float (s : string) : option N :=
  match s with
  | EmptyString => None
  | _ => digits s 0%N
  end.

(** Sphinx tooling that keeps a project as the directory [project_dir]
    with the sub-directory [source]; with [fails] every method raises
    and leaves the disk alone. *)
Definition source_dir (p : SphinxProject) : string :=
  Path.join (project_dir p) "source".

Definition conf_py : string :=
  "project = 'x'" +:+ nl +:+ "version = '0'" +:+ nl
  +:+ "release = '0'" +:+ nl +:+ "html_theme = 'y'".

Definition modules_rst : string :=
  "source-python.core package" +:+ nl +:+ "source-python.core.command".

Definition create (fails : bool) (p : SphinxProject) (args : list string)
    (d : disk_t) : option exn * disk_t :=
  if fails then (Some (ToolError "create"), d)
  else (None,
        <[source_dir p := {[ "conf.py" := File conf_py;
                             "index.rst" := File "index" ]}]>
          (<[project_dir p := {[ "source" := Directory ]}]> d)).

Definition generate (fails : bool) (p : SphinxProject)
    (d : disk_t) : option exn * disk_t :=
  if fails then (Some (ToolError "generate"), d)
  else (None, Path.store d (source_dir p, "modules.rst") modules_rst).

Definition build (fails : bool) (p : SphinxProject)
    (d : disk_t) : option exn * disk_t :=
  if fails then (Some (ToolError "build"), d)
  else (None, <[Path.join (project_dir p) "build" := ∅]> d).

Definition credits : credits_t :=
  [("Project Leaders", [("Ayuto", "Developer"); ("satoon101", "Developer")]);
   ("Contributors", [("a-name-of-twenty-one!", "Tester")])].

Definition imports (fails : bool) : Imports := {|
  VERSION := "70";
  SP_DOCS_PATH := "/docs/source-python";
  CUSTOM_PACKAGES_DOCS_PATH := "/docs/custom-packages";
  PLUGIN_DOCS_PATH := "/docs/plugins";
  SP_PACKAGES_PATH := "/packages/source-python";
  CUSTOM_PACKAGES_PATH := "/packages/custom";
  PLUGIN_PATH := "/plugins";
  SP_DATA_PATH := "/data/source-python";
  prefix := "[SP] ";
  Plugins_string := "Loaded plugins:";
  Credits_string := "Credits:";
  dumps_all := ["dump_class_info"; "dump_convars"; "dump_datamaps";
                "dump_server_classes"; "dump_string_tables";
                "dump_weapon_scripts"];
  dumps_call := fun _ _ d => (None, d);
  duration := N;
  float := parse_float;
  ConfigObj := fun _ _ => credits;
  project_exists := fun p d => bool_decide (is_Some (d !! project_dir p));
  project_source_dir := source_dir;
  sphinx_create := create fails;
  sphinx_generate_project_files := generate fails;
  sphinx_build := build fails
|}.

(** A disk with one custom package, one plugin, a name that is both,
    and no Sphinx project yet. *)
Definition custom_entries : gmap string node :=
  {[ "mypackage.py" := File "import x"; "both" := Directory ]}.

Definition plugin_entries : gmap string node :=
  {[ "myplugin" := Directory; "both" := Directory;
     "notes.txt" := File "todo" ]}.

Definition fresh_disk : disk_t :=
  {[ "/packages/custom" := custom_entries;
     "/plugins" := plugin_entries;
     "/docs" := ∅ ]}.

Definition world {I : Imports} (d : disk_t)
    (m : list (string * option PluginInfo)) : World I :=
  mkWorld d m [] [] [] [].

(** Plugins in load order. *)
Definition plugins : list (string * option PluginInfo) :=
  [("zulu", None);
   ("alpha", Some [("author", Plain "me");
                   ("cvar", ConVar "alpha_version" "Version" "1.0")]);
   ("mu", None)].

(** The project of Source.Python, and the disk once it is created and
    once its files are generated. *)
Definition sp : SphinxProject :=
  mkProject "/packages/source-python" "/docs/source-python".

Definition created_disk : disk_t :=
  (create false sp ["Source.Python Development Team"; "Source.Python"; "70"]
     fresh_disk).2.

Definition generated_disk : disk_t := (generate false sp created_disk).2.

(** The entries of the project source directory on these disks. *)
Definition created_entries : gmap string node :=
  default ∅ (created_disk !! source_dir sp).

Definition generated_entries : gmap string node :=
  default ∅ (generated_disk !! source_dir sp).

(** The worlds of the examples: Sphinx tooling that works on the fresh
    disk and on the disk with the project, and tooling that fails. *)
Definition fresh : World (imports false) := world fresh_disk plugins.

Definition created : World (imports false) := world created_disk plugins.

Definition failing : World (imports true) := world created_disk plugins.

End Demo.

(** ** Conditions on a run, for the further properties *)

Module Run.

(** No character of [s] is a line feed. *)
Fixpoint no_lf (s : string) : bool :=
  match s with
  | EmptyString => true
  | String c s' => negb (Ascii.eqb c PyStr.LF) && no_lf s'
  end.

(** No character of [s] is a dot. *)
Fixpoint no_dot (s : string) : bool :=
  match s with
  | EmptyString => true
  | String c s' => negb (Ascii.eqb c "."%char) && no_dot s'
  end.

(** [m] never raises [IndexError]. *)
Definition no_index_error {I A} (m : M I A) : Prop :=
  forall w, (m w).1 <> Raises IndexError.

(** The run [r] of a command from [w] made at most [n] Sphinx calls,
    logged exactly one message if it returned and none if it raised, and
    left the plugin manager, the dump calls and the delays alone. *)
Definition tidy {I} (n : nat) (w : World I)
    (r : outcome unit * World I) : Prop :=
  manager r.2 = manager w /\ dump_calls r.2 = dump_calls w
  /\ delays r.2 = delays w
  /\ (exists cs, sphinx_calls r.2 = sphinx_calls w ++ cs
                 /\ (length cs <= n)%nat)
  /\ match r.1 with
     | Returns _ => exists msg, logged r.2 = logged w ++ [msg]
     | Raises _ => logged r.2 = logged w
     end.

(** The world after a guarded Sphinx call with outcome [r]: the disk
    the call left, one message more, one recorded call more. *)
Definition after_call {I} (w : World I) (v : verb) (project : SphinxProject)
    (args : list string) (r : option exn * disk_t) (ok err : string)
    : World I :=
  mkWorld r.2 (manager w)
    (logged w ++ [match r.1 with None => ok | Some _ => err end])
    (sphinx_calls w ++ [mkCall v project args r.1])
    (dump_calls w) (delays w).

(** A line with its line feed, and a last line without one. *)
Definition complete (l : string) : Prop :=
  exists body, l = body +:+ PyStr.nl /\ no_lf body = true.

Definition partial (l : string) : Prop :=
  l <> EmptyString /\ no_lf l = true.

(** The lines of a text: complete lines, the last one possibly partial. *)
Fixpoint lines_ok (ls : list string) : Prop :=
  match ls with
  | [] => True
  | l :: ls' =>
      match ls' with
      | [] => complete l \/ partial l
      | _ => complete l /\ lines_ok ls'
      end
  end.

End Run.

(** ** Text mode

    [conf_file.open()] and [conf_file.open('w')] open the file in text
    mode.  On disk the file is bytes; reading gives the text in which
    each of the line ends CR LF and CR has become a line feed, and
    writing puts the line separator of the platform ([os.linesep]) for
    every line feed of the text.  Characters are one byte each. *)

Module TextMode.
Import PyStr.

Definition CR : ascii := "013"%char.

(** The line separators: of Linux, and of Windows. *)
Definition posix : string := nl.

Definition windows : string := String CR nl.

(** What a text-mode read makes of the bytes of a file. *)
Fixpoint read_newlines (bytes : string) : string :=
  match bytes with
  | EmptyString => EmptyString
  | String c rest =>
      if Ascii.eqb c CR then
        String LF
          match rest with
          | String c' rest' =>
              if Ascii.eqb c' LF then read_newlines rest'
              else read_newlines rest
          | EmptyString => EmptyString
          end
      else String c (read_newlines rest)
  end.

(** The bytes a text-mode write makes of a text. *)
Fixpoint write_newlines (linesep text : string) : string :=
  match text with
  | EmptyString => EmptyString
  | String c rest =>
      (if Ascii.eqb c LF then linesep else String c EmptyString)
      +:+ write_newlines linesep rest
  end.

(** No byte is a carriage return. *)
Fixpoint no_cr (bytes : string) : bool :=
  match bytes with
  | EmptyString => true
  | String c rest => negb (Ascii.eqb c CR) && no_cr rest
  end.

(** The lines of the bytes of a file, each as its body and its line
    end: CR LF, CR or a line feed, or nothing for a last line without
    a line end. *)
Fixpoint byte_lines (bytes : string) : list (string * string) :=
  match bytes with
  | EmptyString => []
  | String c rest =>
      if Ascii.eqb c LF then (EmptyString, nl) :: byte_lines rest
      else if Ascii.eqb c CR then
        match rest with
        | String c' rest' =>
            if Ascii.eqb c' LF then (EmptyString, windows) :: byte_lines rest'
            else (EmptyString, String CR EmptyString) :: byte_lines rest
        | EmptyString => [(EmptyString, String CR EmptyString)]
        end
      else
        match byte_lines rest with
        | [] => [(String c EmptyString, EmptyString)]
        | (body, e) :: ls => (String c body, e) :: ls
        end
  end.

(** The bytes of a line of the file, the text [readlines] gives for it,
    and the bytes that writing this text back puts in the file. *)
Definition line_bytes (l : string * string) : string := l.1 +:+ l.2.

Definition line_text (l : string * string) : string :=
  l.1 +:+ match l.2 with EmptyString => EmptyString | _ => nl end.

Definition line_written (linesep : string) (l : string * string) : string :=
  l.1 +:+ match l.2 with EmptyString => EmptyString | _ => linesep end.

(** The bytes of the file at [p], where the program has written it. *)
Definition written_bytes (linesep : string) (dk : disk_t) (p : entry_path)
    : option string :=
  match Path.lookup_entry dk p with
  | Some (File text) => Some (write_newlines linesep text)
  | _ => None
  end.

End TextMode.

(** ** More of the small installation *)

Module Demo2.
Import PyStr.

(** The project of the plugin [myplugin], and the disks that create,
    generate and build leave one after the other from the fresh disk. *)
Definition plugin : SphinxProject :=
  mkProject "/plugins/myplugin" "/docs/plugins/myplugin".

Definition disk1 : disk_t :=
  (Demo.create false plugin ["Unknown"] Demo.fresh_disk).2.

Definition disk2 : disk_t := (Demo.generate false plugin disk1).2.

Definition disk3 : disk_t := (Demo.build false plugin disk2).2.

(** The disk with the project of Source.Python after the rewriting of
    build, and the entries of its source directory. *)
Definition rebuilt_disk : disk_t :=
  Path.store Demo.created_disk (Demo.source_dir Demo.sp, "conf.py")
    (cat (Layout.conf_line "70" <$> readlines Demo.conf_py)).

Definition rebuilt_entries : gmap string node :=
  default ∅ (rebuilt_disk !! Demo.source_dir Demo.sp).

Definition rebuilt : World (Demo.imports true) :=
  Demo.world rebuilt_disk Demo.plugins.





(** The bytes of a [conf.py] whose lines end in CR LF, and of one
    whose lines end in a line feed; the worlds with the project of
    Source.Python in which [conf.py] has these bytes. *)
Definition crlf_bytes : string :=
  "project = 'x'" +:+ TextMode.windows
  +:+ "version = '0'" +:+ TextMode.windows.

Definition lf_bytes : string :=
  "project = 'x'" +:+ nl +:+ "version = '0'" +:+ nl.

Definition with_conf_bytes (bytes : string) : World (Demo.imports false) :=
  Demo.world
    (Path.store Demo.created_disk (Demo.source_dir Demo.sp, "conf.py")
       (TextMode.read_newlines bytes))
    Demo.plugins.

(** A project directory without its source directory. *)
Definition hollow : World (Demo.imports false) :=
  Demo.world (<["/docs/source-python" := ∅]> Demo.fresh_disk) Demo.plugins.

(** A disk without any directory. *)
Definition empty : World (Demo.imports false) := Demo.world ∅ [].



End Demo2.

(** * Properties *)

(** ** Facts about Python strings *)

Module PyStrFacts.
Import PyStr.

Lemma app_cons c s t : String c s +:+ t = String c (s +:+ t).
Proof. reflexivity. Qed.

Lemma app_nil_l s : EmptyString +:+ s = s.
Proof. reflexivity. Qed.

Lemma app_nil_r s : s +:+ EmptyString = s.
Proof. induction s as [|c s IH]; [reflexivity|]. by rewrite app_cons, IH. Qed.

Lemma app_assoc s t u : (s +:+ t) +:+ u = s +:+ t +:+ u.
Proof. induction s as [|c s IH]; [reflexivity|]. by rewrite !app_cons, IH. Qed.

Lemma length_app s t :
  String.length (s +:+ t) = (String.length s + String.length t)%nat.
Proof.
  induction s as [|c s IH]; [reflexivity|].
  rewrite app_cons. cbn [String.length]. by rewrite IH.
Qed.

Lemma length_copies_char c n :
  String.length (copies (String c EmptyString) n) = n.
Proof.
  induction n as [|n IH]; [reflexivity|].
  cbn [copies]. rewrite app_cons, app_nil_l. cbn [String.length]. by rewrite IH.
Qed.

Lemma prefix_app p b : String.prefix p (p +:+ b) = true.
Proof.
  induction p as [|c p IH]; [by destruct b|].
  rewrite app_cons. simpl. destruct (ascii_dec c c); [done|congruence].
Qed.

Lemma prefix_inv p s : String.prefix p s = true -> exists b, s = p +:+ b.
Proof.
  revert s. induction p as [|c p IH]; intros s H.
  - by exists s.
  - destruct s as [|c' s]; [done|]. simpl in H.
    destruct (ascii_dec c c') as [->|]; [|done].
    destruct (IH s H) as [b ->]. by exists b.
Qed.

Lemma occurs_here old b : occurs old (old +:+ b).
Proof. by exists EmptyString, b. Qed.

Lemma occurs_app_l a old s : occurs old s -> occurs old (a +:+ s).
Proof. intros (x & y & ->). exists (a +:+ x), y. by rewrite app_assoc. Qed.

Lemma occurs_app_r old s b : occurs old s -> occurs old (s +:+ b).
Proof. intros (x & y & ->). exists x, (y +:+ b). by rewrite !app_assoc. Qed.

Lemma occurs_cons c old s : occurs old s -> occurs old (String c s).
Proof. apply (occurs_app_l (String c EmptyString)). Qed.

End PyStrFacts.

(** ** The credits report *)

Section Credits.
Context (I : Imports).
Import PyStr PyStrFacts.

(** What one name of a group adds to the report. *)
Lemma names_loop_cat names message :
  names_loop names message
  = message +:+ cat ((fun p => tab +:+ tab +:+ p.1 +:+ mul " " (20 - len p.1)
                              +:+ p.2 +:+ nl) <$> names).
Proof.
  revert message. induction names as [|[name role] names IH]; intros message.
  - by rewrite app_nil_r.
  - cbn [names_loop fmap list_fmap cat fst snd]. rewrite IH.
    by rewrite !app_assoc.
Qed.

Lemma groups_loop_cat groups message :
  groups_loop groups message
  = message +:+ cat ((fun g => tab +:+ g.1 +:+ ":" +:+ nl
                       +:+ cat ((fun p => tab +:+ tab +:+ p.1
                                   +:+ mul " " (20 - len p.1) +:+ p.2 +:+ nl)
                                  <$> g.2)
                       +:+ nl) <$> groups).
Proof.
  revert message. induction groups as [|[group names] groups IH]; intros message.
  - by rewrite app_nil_r.
  - cbn [groups_loop fmap list_fmap cat fst snd]. rewrite IH, names_loop_cat.
    by rewrite !app_assoc.
Qed.

Lemma mul_max s n : mul s n = copies s (Z.to_nat (Z.max 0 n)).
Proof. unfold mul. f_equal. lia. Qed.

(** C10: in the credits report a name is followed by exactly
    max(0, 20 - len(name)) spaces and then its role.  The report is the
    header, one block per group (a title line, one row per name, a blank
    line) and the closing rule; in a row the role of a name shorter than
    20 characters starts at column 22 (after the two tabs), and a name of
    20 characters or more is followed by its role with nothing between. *)
Theorem print_credits_padding (w : World I) :
  let groups : list (string * list (string * string)) :=
    ConfigObj I (Path.join (SP_DATA_PATH I) "credits.ini") (disk w) in
  let pad := fun name => copies " " (Z.to_nat (Z.max 0 (20 - len name))) in
  let row := fun p : string * string =>
    tab +:+ tab +:+ p.1 +:+ pad p.1 +:+ p.2 +:+ nl in
  let block := fun g : string * list (string * string) =>
    tab +:+ g.1 +:+ ":" +:+ nl +:+ cat (row <$> g.2) +:+ nl in
  print_credits I w
  = log_message (prefix I +:+ Credits_string I +:+ nl +:+ rule +:+ nl +:+ nl
                 +:+ cat (block <$> groups) +:+ rule +:+ nl +:+ nl) w
  /\ forall name,
       String.length (pad name) = Z.to_nat (Z.max 0 (20 - len name))
       /\ (len name < 20 ->
           String.length (tab +:+ tab +:+ name +:+ pad name) = 22%nat)
       /\ (20 <= len name ->
           forall role, row (name, role) = tab +:+ tab +:+ name +:+ role +:+ nl).
Proof.
  intros groups pad row block. split.
  - unfold print_credits, bind, get_disk. fold groups.
    rewrite groups_loop_cat.
    assert (Hrow : forall names : list (string * string),
      (fun p : string * string =>
         tab +:+ tab +:+ p.1 +:+ mul " " (20 - len p.1) +:+ p.2 +:+ nl)
        <$> names = row <$> names).
    { intros names. apply list_fmap_ext. intros _ p _. unfold row, pad.
      by rewrite mul_max. }
    rewrite (list_fmap_ext _ block groups).
    + unfold rule. by rewrite !app_assoc.
    + intros _ g _. unfold block. by rewrite Hrow.
  - intros name. unfold row, pad, len. repeat split.
    + apply (length_copies_char " "%char).
    + intros Hlt. rewrite !length_app, (length_copies_char " "%char).
      cbn [String.length tab]. lia.
    + intros Hge role. cbn [fst snd].
      replace (Z.to_nat (Z.max 0 (20 - Z.of_nat (String.length name)))) with 0%nat by lia.
      reflexivity.
Qed.

End Credits.

(** ** The plugin list *)

Section Plugins.
Context (I : Imports).
Import PyStr PyStrFacts.

Lemma items_loop_cat (items : PluginInfo) message :
  items_loop items message
  = message +:+ cat ((fun iv => item_text iv.1 iv.2) <$> items).
Proof.
  revert message. induction items as [|[item value] items IH]; intros message.
  - by rewrite app_nil_r.
  - cbn [items_loop fmap list_fmap cat fst snd]. rewrite IH.
    by rewrite !app_assoc.
Qed.

Lemma getitem_Some {V} (m : list (string * V)) k v :
  NoDup m.*1 -> getitem m k = Some v <-> (k, v) ∈ m.
Proof.
  induction m as [|[k' v'] m IH]; intros Hnd.
  - cbn. split; [done|]. by intros ?%not_elem_of_nil.
  - cbn [getitem]. apply NoDup_cons in Hnd as [Hk' Hnd].
    destruct (String.eqb_spec k k') as [->|Hne].
    + split.
      * intros [= ->]. apply list_elem_of_here.
      * intros [[= ->]|Hin]%elem_of_cons; [done|].
        destruct Hk'. apply list_elem_of_fmap. by exists (k', v).
    + rewrite (IH Hnd). split.
      * intros Hin. by apply list_elem_of_further.
      * intros [[= -> ->]|Hin]%elem_of_cons; [done|done].
Qed.

Lemma getitem_is_Some {V} (m : list (string * V)) k :
  k ∈ m.*1 -> is_Some (getitem m k).
Proof.
  induction m as [|[k' v'] m IH]; cbn [getitem fmap list_fmap fst].
  - by intros ?%not_elem_of_nil.
  - intros [->|Hin]%elem_of_cons.
    + by rewrite String.eqb_refl.
    + destruct (String.eqb k k'); [done|auto].
Qed.

Lemma getitem_Permutation {V} (m1 m2 : list (string * V)) k :
  NoDup m1.*1 -> m1 ≡ₚ m2 -> getitem m2 k = getitem m1 k.
Proof.
  intros Hnd Hp.
  assert (Hnd2 : NoDup m2.*1) by by rewrite <- Hp.
  apply option_eq. intros v.
  rewrite (getitem_Some m1), (getitem_Some m2) by done. by rewrite Hp.
Qed.

Lemma sorted_Permutation names1 names2 :
  names1 ≡ₚ names2 -> sorted names1 = sorted names2.
Proof.
  intros Hp. apply (StronglySorted_unique String.le).
  - apply StronglySorted_merge_sort; apply _.
  - apply StronglySorted_merge_sort; apply _.
  - unfold sorted. by rewrite !merge_sort_Permutation.
Qed.

(** The loop adds one record and one blank line per name. *)
Lemma plugins_loop_cat mgr (entries : list (string * option PluginInfo)) message :
  Forall (fun e => getitem mgr e.1 = Some e.2) entries ->
  plugins_loop mgr entries.*1 message
  = Returns (message
             +:+ cat ((fun e => Layout.plugin_record e +:+ nl) <$> entries)).
Proof.
  revert message.
  induction entries as [|[name info] entries IH]; intros message Hall.
  - cbn. by rewrite app_nil_r.
  - apply Forall_cons in Hall as [Hinfo Hall]. cbn [fst snd] in Hinfo.
    cbn [plugins_loop fmap list_fmap cat fst snd].
    rewrite Hinfo, (IH _ Hall). f_equal. destruct info as [items|].
    + rewrite items_loop_cat. cbn [Layout.plugin_record].
      by rewrite !app_assoc.
    + cbn [Layout.plugin_record]. by rewrite !app_assoc.
Qed.

Lemma cat_snoc (l : list string) x : cat (l ++ [x]) = cat l +:+ x.
Proof.
  induction l as [|y l IH]; cbn [cat app].
  - by rewrite app_nil_r.
  - by rewrite IH, app_assoc.
Qed.

Lemma item_text_end item value :
  exists body, item_text item value = body +:+ nl.
Proof.
  destruct value as [text|name help text]; unfold item_text.
  - exists (tab +:+ item +:+ ":" +:+ nl +:+ tab +:+ tab +:+ text).
    by rewrite !app_assoc.
  - exists (tab +:+ item +:+ ":" +:+ nl +:+ tab +:+ tab +:+ name +:+ ":"
            +:+ nl +:+ tab +:+ tab +:+ tab +:+ help +:+ ": " +:+ text).
    by rewrite !app_assoc.
Qed.

(** The title line of a record and its items end with a line feed. *)
Lemma record_items_end (items : PluginInfo) :
  exists rest,
    ":" +:+ nl +:+ cat ((fun iv => item_text iv.1 iv.2) <$> items)
    = rest +:+ nl.
Proof.
  destruct items as [|[item value] items _] using rev_ind.
  - by exists ":".
  - rewrite fmap_app. cbn [fmap list_fmap fst snd]. rewrite cat_snoc.
    destruct (item_text_end item value) as [body ->].
    exists (":" +:+ nl +:+ cat ((fun iv => item_text iv.1 iv.2) <$> items)
            +:+ body).
    by rewrite !app_assoc.
Qed.

(** C8: the list report.  For every state of the plugin manager (a
    dictionary: its names are distinct) the report is one message: the
    prefix and the title line, a rule of exactly 61 equal signs, then the
    records of the loaded plugins in lexicographic order of their names,
    each record ending its line and followed by one blank line, then the
    closing rule of 61 equal signs.  The message is the same for every
    load order of the same plugins. *)
Theorem print_plugins_report (w : World I) :
  NoDup (manager w).*1 ->
  exists entries : list (string * option PluginInfo),
    entries ≡ₚ manager w
    /\ StronglySorted String.le entries.*1
    /\ (forall w2 : World I, manager w2 ≡ₚ manager w ->
          print_plugins I w2
          = log_message
              (Layout.plugins_report (prefix I) (Plugins_string I) entries) w2)
    /\ String.length rule = 61%nat
    /\ rule = copies "=" 61
    /\ (forall e, e ∈ entries ->
          exists rest, Layout.plugin_record e = e.1 +:+ rest +:+ nl).
Proof.
  intros Hnd. set (mgr := manager w) in *.
  set (f := fun n : string => (n, default None (getitem mgr n))).
  assert (Hf : forall e, e ∈ mgr -> f e.1 = e).
  { intros [n v] Hin. unfold f. cbn [fst].
    apply (getitem_Some mgr n v Hnd) in Hin. by rewrite Hin. }
  exists (f <$> sorted mgr.*1).
  assert (Hkeys : (f <$> sorted mgr.*1).*1 = sorted mgr.*1).
  { rewrite <- list_fmap_compose. apply list_fmap_id. }
  repeat split.
  - unfold sorted. rewrite merge_sort_Permutation, <- list_fmap_compose.
    rewrite (list_fmap_ext (f ∘ fst) id mgr); [by rewrite list_fmap_id|].
    intros i e He. apply Hf. by eapply list_elem_of_lookup_2.
  - rewrite Hkeys. apply StronglySorted_merge_sort; apply _.
  - intros w2 Hp. unfold print_plugins.
    assert (Hs : sorted (manager w2).*1 = sorted mgr.*1).
    { apply sorted_Permutation. by rewrite Hp. }
    rewrite Hs.
    pose proof (plugins_loop_cat (manager w2) (f <$> sorted mgr.*1)) as Hl.
    rewrite Hkeys in Hl. rewrite Hl.
    + unfold Layout.plugins_report, rule. by rewrite !app_assoc.
    + apply Forall_forall. intros e [n [-> Hn]]%list_elem_of_fmap.
      cbn [f fst snd]. rewrite (getitem_Permutation mgr (manager w2)) by done.
      assert (Hn' : n ∈ mgr.*1).
      { revert Hn. unfold sorted. by rewrite merge_sort_Permutation. }
      destruct (getitem_is_Some mgr n Hn') as [v ->]. done.
  - intros [name [items|]] _; cbn [Layout.plugin_record fst].
    + destruct (record_items_end items) as [rest Hrest].
      exists rest. by rewrite Hrest.
    + exists EmptyString. reflexivity.
Qed.

End Plugins.

(** ** Commands that act on the disk only *)

Section Frames.
Context {I : Imports}.
Import PyStr PyStrFacts.

Lemma same_but_disk_refl (w : World I) : same_but_disk w w.
Proof. by repeat split. Qed.

Lemma same_but_disk_trans (w1 w2 w3 : World I) :
  same_but_disk w1 w2 -> same_but_disk w2 w3 -> same_but_disk w1 w3.
Proof.
  intros (?&?&?&?&?) (?&?&?&?&?). repeat split; congruence.
Qed.

Lemma disk_only_ret {A} (a : A) : disk_only (I:=I) (ret a).
Proof. intros w. apply same_but_disk_refl. Qed.

Lemma disk_only_raise {A} e : disk_only (I:=I) (A:=A) (raise e).
Proof. intros w. apply same_but_disk_refl. Qed.

Lemma disk_only_get_disk : disk_only (I:=I) get_disk.
Proof. intros w. apply same_but_disk_refl. Qed.

Lemma disk_only_set_disk d : disk_only (I:=I) (set_disk d).
Proof. intros w. by repeat split. Qed.

Lemma disk_only_bind {A B} (m : M I A) (k : A -> M I B) :
  disk_only m -> (forall a, disk_only (k a)) -> disk_only (bind m k).
Proof.
  intros Hm Hk w. unfold bind. specialize (Hm w).
  destruct (m w) as [[a|e] w1]; cbn [snd] in *; [|done].
  eapply same_but_disk_trans; [done|]. apply Hk.
Qed.

Lemma disk_only_for_each {A} (l : list A) (body : A -> M I unit) :
  (forall x, disk_only (body x)) -> disk_only (for_each l body).
Proof.
  intros Hbody. induction l as [|x l IH]; cbn [for_each].
  - apply disk_only_ret.
  - apply disk_only_bind; [apply Hbody|]. by intros _.
Qed.

Lemma disk_only_if {A} (b : bool) (m1 m2 : M I A) :
  disk_only m1 -> disk_only m2 -> disk_only (if b then m1 else m2).
Proof. by destruct b. Qed.

Lemma disk_only_listdir d : disk_only (I:=I) (Path.listdir d).
Proof.
  intros w. unfold Path.listdir.
  destruct (disk w !! d); apply same_but_disk_refl.
Qed.

Lemma disk_only_read_text p : disk_only (I:=I) (Path.read_text p).
Proof.
  intros w. unfold Path.read_text.
  destruct (Path.lookup_entry (disk w) p) as [[]|]; apply same_but_disk_refl.
Qed.

Lemma disk_only_open_w p : disk_only (I:=I) (Path.open_w p).
Proof.
  intros w. unfold Path.open_w.
  destruct (disk w !! p.1) as [entries|]; [|apply same_but_disk_refl].
  destruct (entries !! p.2) as [[]|];
    first [apply same_but_disk_refl | apply disk_only_set_disk].
Qed.

Lemma disk_only_write p text : disk_only (I:=I) (Path.write p text).
Proof.
  intros w. unfold Path.write.
  destruct (Path.lookup_entry (disk w) p) as [[]|];
    first [apply same_but_disk_refl | apply disk_only_set_disk].
Qed.

Lemma disk_only_first l : disk_only (I:=I) (first I l).
Proof. destruct l; [apply disk_only_raise|apply disk_only_ret]. Qed.

Create HintDb disk_only.
#[local] Hint Resolve disk_only_ret disk_only_raise disk_only_get_disk
  disk_only_set_disk disk_only_listdir disk_only_read_text disk_only_open_w
  disk_only_write disk_only_first : disk_only.
#[local] Hint Extern 2 (disk_only (bind _ _)) =>
  apply disk_only_bind; [|intros ?] : disk_only.
#[local] Hint Extern 2 (disk_only (for_each _ _)) =>
  apply disk_only_for_each; intros ? : disk_only.
#[local] Hint Extern 2 (disk_only (if _ then _ else _)) =>
  apply disk_only_if : disk_only.

Lemma disk_only_dirs d : disk_only (I:=I) (Path.dirs d).
Proof. unfold Path.dirs. auto with disk_only. Qed.

Lemma disk_only_files d suffix : disk_only (I:=I) (Path.files d suffix).
Proof. unfold Path.files. auto with disk_only. Qed.

Lemma disk_only_exists_ project : disk_only (exists_ I project).
Proof. unfold exists_. auto with disk_only. Qed.

Lemma disk_only_is_custom_package package :
  disk_only (is_custom_package I package).
Proof. unfold is_custom_package. auto with disk_only. Qed.

Lemma disk_only_is_plugin package : disk_only (is_plugin I package).
Proof.
  unfold is_plugin. apply disk_only_bind; [apply disk_only_dirs|].
  intros ?. apply disk_only_ret.
Qed.

Lemma disk_only_strip_module_path p : disk_only (strip_module_path I p).
Proof. unfold strip_module_path. auto 10 with disk_only. Qed.

Lemma disk_only_update_version_line p line :
  disk_only (update_version_line I p line).
Proof. unfold update_version_line. auto 10 with disk_only. Qed.

End Frames.

(** ** The category tests, read off the disk *)

Section Categories.
Context (I : Imports).
Import PyStr PyStrFacts.

Lemma listdir_entries d (w : World I) entries :
  disk w !! d = Some entries ->
  exists ps, Path.listdir d w = (Returns ps, w)
    /\ forall p, p ∈ ps <-> p.1 = d /\ is_Some (entries !! p.2).
Proof.
  intros Hd. unfold Path.listdir. rewrite Hd. eexists. split; [done|].
  intros [d' name]. rewrite list_elem_of_fmap. cbn [fst snd]. split.
  - intros ([name' node] & [= -> ->] & Hin%elem_of_map_to_list). eauto.
  - intros [-> [node Hnode]]. exists (name, node). split; [done|].
    by apply elem_of_map_to_list.
Qed.

Lemma isdir_entries d (dk : disk_t) entries name :
  dk !! d = Some entries ->
  Path.isdir dk (d, name) = true <-> entries !! name = Some Directory.
Proof.
  intros Hd. unfold Path.isdir, Path.lookup_entry. cbn [fst snd]. rewrite Hd.
  destruct (entries !! name) as [[]|]; naive_solver.
Qed.

Lemma is_custom_package_true package (w : World I) entries name :
  disk w !! CUSTOM_PACKAGES_PATH I = Some entries ->
  is_Some (entries !! name) ->
  Path.namebase (CUSTOM_PACKAGES_PATH I, name) = package ->
  is_custom_package I package w = (Returns true, w).
Proof.
  intros Hd Hname Hbase. unfold is_custom_package, bind.
  destruct (listdir_entries _ w entries Hd) as (ps & -> & Hps).
  unfold ret. do 2 f_equal. apply bool_decide_eq_true.
  apply list_elem_of_fmap. exists (CUSTOM_PACKAGES_PATH I, name).
  split; [done|]. by apply Hps.
Qed.

Lemma is_custom_package_false package (w : World I) entries :
  disk w !! CUSTOM_PACKAGES_PATH I = Some entries ->
  (forall name, is_Some (entries !! name) ->
     Path.namebase (CUSTOM_PACKAGES_PATH I, name) <> package) ->
  is_custom_package I package w = (Returns false, w).
Proof.
  intros Hd Hnone. unfold is_custom_package, bind.
  destruct (listdir_entries _ w entries Hd) as (ps & -> & Hps).
  unfold ret. do 2 f_equal. apply bool_decide_eq_false.
  intros ([d name] & Hbase & [Hd' Hin]%Hps)%list_elem_of_fmap.
  cbn [fst snd] in *. subst d. by eapply Hnone.
Qed.


Lemma is_plugin_false package (w : World I) entries :
  disk w !! PLUGIN_PATH I = Some entries ->
  (forall name, entries !! name = Some Directory ->
     Path.namebase (PLUGIN_PATH I, name) <> package) ->
  is_plugin I package w = (Returns false, w).
Proof.
  intros Hd Hnone. unfold is_plugin, Path.dirs, bind.
  destruct (listdir_entries _ w entries Hd) as (ps & -> & Hps).
  unfold get_disk, ret. do 2 f_equal. apply bool_decide_eq_false.
  intros ([d name] & Hbase & [Hdir [Hd' Hin]%Hps]%list_elem_of_filter)%list_elem_of_fmap.
  cbn [fst snd] in *. subst d.
  apply (isdir_entries _ _ entries) in Hdir; [|done]. by eapply Hnone.
Qed.

Lemma is_source_python_true : is_source_python "source-python" = true.
Proof. reflexivity. Qed.

Lemma is_source_python_false package :
  package <> "source-python" -> is_source_python package = false.
Proof. intros H. by apply bool_decide_eq_false. Qed.

End Categories.

(** ** Routing by [docs_handler] *)

Section Routing.
Context (I : Imports).
Import PyStr PyStrFacts.

(** A logged message is the only change [log_message] makes. *)
Lemma log_message_effect msg (w : World I) :
  exists w', log_message msg w = (Returns tt, w')
    /\ logged w' = logged w ++ [msg] /\ disk w' = disk w
    /\ sphinx_calls w' = sphinx_calls w /\ dump_calls w' = dump_calls w
    /\ delays w' = delays w /\ manager w' = manager w.
Proof. eexists. by repeat split. Qed.

Lemma occursb_sound old s : occursb old s = true -> occurs old s.
Proof.
  induction s as [|c s IH]; cbn [occursb].
  - rewrite orb_false_r. intros [b ->]%prefix_inv. apply occurs_here.
  - intros [[b ->]%prefix_inv|H]%orb_true_iff.
    + apply occurs_here.
    + by apply occurs_cons, IH.
Qed.

Lemma docs_handler_create package :
  docs_handler I "create" package = _create_sphinx_project I package.
Proof. reflexivity. Qed.

Lemma docs_handler_generate package :
  docs_handler I "generate" package = _generate_sphinx_project I package.
Proof. reflexivity. Qed.

Lemma docs_handler_build package :
  docs_handler I "build" package = _build_sphinx_project I package.
Proof. reflexivity. Qed.

(** C4: an action other than create, generate and build gets the usage
    message, which lists the three, and nothing else happens: the disk is
    not even read (the equation holds on every disk).  A valid action on
    a package that is not source-python, matches no entry of the custom
    package directory and no sub-directory of the plugin directory gets
    the one rejection message, which names source-python, custom package
    and plugin; no Sphinx call is made. *)
Theorem docs_handler_rejections (action package : string) (w : World I) :
  (action <> "create" -> action <> "generate" -> action <> "build" ->
   docs_handler I action package w
   = log_message ("Invalid action: " +:+ dq +:+ action +:+ dq
                  +:+ ". Valid action are: create, generate and build") w)
  /\ (forall ce pe : gmap string node,
        action = "create" \/ action = "generate" \/ action = "build" ->
        package <> "source-python" ->
        disk w !! CUSTOM_PACKAGES_PATH I = Some ce ->
        (forall name, is_Some (ce !! name) ->
           Path.namebase (CUSTOM_PACKAGES_PATH I, name) <> package) ->
        disk w !! PLUGIN_PATH I = Some pe ->
        (forall name, pe !! name = Some Directory ->
           Path.namebase (PLUGIN_PATH I, name) <> package) ->
        docs_handler I action package w
        = log_message (not_a_package package) w
        /\ sphinx_calls (docs_handler I action package w).2 = sphinx_calls w
        /\ disk (docs_handler I action package w).2 = disk w
        /\ occurs "source-python" (not_a_package package)
        /\ occurs "custom package" (not_a_package package)
        /\ occurs "plugin" (not_a_package package)).
Proof.
  split.
  - intros Hc Hg Hb. unfold docs_handler.
    destruct (String.eqb_spec action "create"); [done|].
    destruct (String.eqb_spec action "generate"); [done|].
    destruct (String.eqb_spec action "build"); [done|]. done.
  - intros ce pe Hact Hsp Hce Hcnone Hpe Hpnone.
    assert (Hrun : docs_handler I action package w
                   = log_message (not_a_package package) w).
    { destruct Hact as [->|[->| ->]];
        [rewrite docs_handler_create; unfold _create_sphinx_project
        |rewrite docs_handler_generate; unfold _generate_sphinx_project
        |rewrite docs_handler_build; unfold _build_sphinx_project];
        rewrite (is_source_python_false _ Hsp); unfold bind;
        rewrite (is_custom_package_false I package w ce Hce Hcnone);
        rewrite (is_plugin_false I package w pe Hpe Hpnone); done. }
    rewrite Hrun. repeat split.
    + unfold not_a_package. apply occurs_app_l, occurs_app_l, occurs_app_l.
      by apply occursb_sound.
    + unfold not_a_package. apply occurs_app_l, occurs_app_l, occurs_app_l.
      by apply occursb_sound.
    + unfold not_a_package. apply occurs_app_l, occurs_app_l, occurs_app_l.
      by apply occursb_sound.
Qed.


(** A text has a literal when its first part has it. *)
Ltac occurs_literal :=
  first [ by apply occursb_sound
        | apply occurs_app_r; by apply occursb_sound ].

(** C2: for every package and each of the three categories, create on
    a project that exists only reports that it already exists, and
    generate and build on a project that does not exist only report that
    it does not exist: the report is the one message logged, no method of
    the Sphinx tooling is called and the disk is left as it was. *)
Theorem lifecycle_noop (package : string) (w : World I) :
  let sp := mkProject (SP_PACKAGES_PATH I) (SP_DOCS_PATH I) in
  let cp := mkProject (Path.join (CUSTOM_PACKAGES_PATH I) package)
              (Path.join (CUSTOM_PACKAGES_DOCS_PATH I) package) in
  let pp := mkProject (Path.join (PLUGIN_PATH I) package)
              (Path.join (PLUGIN_DOCS_PATH I) package) in
  (project_exists I sp (disk w) = true ->
     only_reports "already exists" w (_create_source_python_docs I w))
  /\ (project_exists I cp (disk w) = true ->
     only_reports "already exists" w (_create_custom_package_docs I package w))
  /\ (project_exists I pp (disk w) = true ->
     only_reports "already exists" w (_create_plugin_docs I package w))
  /\ (project_exists I sp (disk w) = false ->
     only_reports "does not exist" w (_generate_source_python_docs I w)
     /\ only_reports "does not exist" w (_build_source_python_docs I w))
  /\ (project_exists I cp (disk w) = false ->
     only_reports "does not exist" w (_generate_custom_package_docs I package w)
     /\ only_reports "does not exist" w (_build_custom_package_docs I package w))
  /\ (project_exists I pp (disk w) = false ->
     only_reports "does not exist" w (_generate_plugin_docs I package w)
     /\ only_reports "does not exist" w (_build_plugin_docs I package w)).
Proof.
  intros sp cp pp. unfold only_reports.
  repeat match goal with
         | |- _ /\ _ => split
         | |- _ -> _ => intros Hex
         end;
    unfold _create_source_python_docs, _create_custom_package_docs,
      _create_plugin_docs, _generate_source_python_docs,
      _generate_custom_package_docs, _generate_plugin_docs,
      _build_source_python_docs, _build_custom_package_docs,
      _build_plugin_docs, exists_, bind, get_disk, ret;
    fold sp cp pp; rewrite Hex;
    (eexists; split; [reflexivity|occurs_literal]).
Qed.

(** *** Exceptions of the Sphinx tooling stay inside *)

Lemma caught_quiet named (w : World I) r :
  sphinx_calls r.2 = sphinx_calls w -> caught named w r.
Proof.
  intros Hc. exists []. rewrite Hc, List.app_nil_r. split; [done|].
  by intros c e ?%not_elem_of_nil.
Qed.

Lemma caught_log_message named msg (w : World I) :
  caught named w (log_message msg w).
Proof. by apply caught_quiet. Qed.

(** After a step that acts on the disk only. *)
Lemma caught_bind {A} named (m : M I A) (k : A -> M I unit) (w : World I) :
  disk_only m ->
  (forall a w1, caught named w1 (k a w1)) ->
  caught named w (bind m k w).
Proof.
  intros Hm Hk. unfold bind. destruct (Hm w) as (_ & Hl & Hc & _).
  destruct (m w) as [[a|e] w1]; cbn [snd] in *.
  - destruct (Hk a w1) as (cs & Hcs & Hr). exists cs.
    by rewrite <- Hc, <- Hl.
  - by apply caught_quiet.
Qed.

(** The [try] around a Sphinx call whose handler logs [err]. *)
Lemma caught_try named v project args run err (orelse : M I unit) (w : World I) :
  (forall w0, sphinx_calls (orelse w0).2 = sphinx_calls w0) ->
  occurs (gerund v) err -> occurs named err ->
  caught named w
    (try_except_else (sphinx I v project args run) (log_message err) orelse w).
Proof.
  intros Helse Hv Hn. unfold try_except_else, sphinx.
  destruct (run (disk w)) as [[e|] d'].
  - exists [mkCall v project args (Some e)]. split; [done|].
    intros c e' ->%list_elem_of_singleton _. split; [done|]. by exists err.
  - exists [mkCall v project args None]. split; [by rewrite Helse|].
    by intros c e' ->%list_elem_of_singleton.
Qed.

Lemma calls_kept_disk_only {A} (m : M I A) w :
  disk_only m -> sphinx_calls (m w).2 = sphinx_calls w.
Proof. intros Hm. by destruct (Hm w) as (_ & _ & ? & _). Qed.

Lemma caught_in_text lit package rest :
  occurs package (lit +:+ dq +:+ package +:+ rest).
Proof. exists (lit +:+ dq), rest. by rewrite !app_assoc. Qed.

(** One of the nine routines: the test of [project_exists], then either
    a plain report or the guarded Sphinx call. *)
Ltac caught_routine :=
  apply caught_bind; [apply disk_only_exists_|];
  intros [] ?;
  repeat (apply caught_bind;
          [first [ apply disk_only_read_text | apply disk_only_open_w
                 | apply disk_only_for_each; intros ?;
                   apply disk_only_update_version_line ]
          | intros ? ?]);
  first [ apply caught_log_message
        | apply caught_try;
          [ intros ?; done
          | first [ occurs_literal ]
          | first [ occurs_literal | apply caught_in_text ] ] ].

Lemma caught_create_source_python w :
  caught "Source.Python" w (_create_source_python_docs I w).
Proof. unfold _create_source_python_docs. caught_routine. Qed.

Lemma caught_create_custom_package package w :
  caught package w (_create_custom_package_docs I package w).
Proof. unfold _create_custom_package_docs. caught_routine. Qed.

Lemma caught_create_plugin package w :
  caught package w (_create_plugin_docs I package w).
Proof. unfold _create_plugin_docs. caught_routine. Qed.

Lemma caught_generate_source_python w :
  caught "Source.Python" w (_generate_source_python_docs I w).
Proof.
  unfold _generate_source_python_docs.
  apply caught_bind; [apply disk_only_exists_|]. intros [] w1.
  - apply caught_try; [|occurs_literal|occurs_literal].
    intros w0. unfold bind.
    pose proof (calls_kept_disk_only
      (Path.files (project_source_dir I
         (mkProject (SP_PACKAGES_PATH I) (SP_DOCS_PATH I))) ".rst") w0
      (disk_only_files _ _)) as Hf.
    destruct (Path.files _ _ w0) as [[fs|e] w2]; cbn [snd] in *; [|done].
    pose proof (calls_kept_disk_only
      (for_each fs (strip_module_path I)) w2
      (disk_only_for_each _ _ (disk_only_strip_module_path (I:=I)))) as Hl.
    destruct (for_each fs _ w2) as [[[]|e] w3];
      unfold log_message; cbn [snd sphinx_calls] in *; congruence.
  - apply caught_log_message.
Qed.

Lemma caught_generate_custom_package package w :
  caught package w (_generate_custom_package_docs I package w).
Proof. unfold _generate_custom_package_docs. caught_routine. Qed.

Lemma caught_generate_plugin package w :
  caught package w (_generate_plugin_docs I package w).
Proof. unfold _generate_plugin_docs. caught_routine. Qed.

Lemma caught_build_source_python w :
  caught "Source.Python" w (_build_source_python_docs I w).
Proof. unfold _build_source_python_docs. caught_routine. Qed.

Lemma caught_build_custom_package package w :
  caught package w (_build_custom_package_docs I package w).
Proof. unfold _build_custom_package_docs. caught_routine. Qed.

Lemma caught_build_plugin package w :
  caught package w (_build_plugin_docs I package w).
Proof. unfold _build_plugin_docs. caught_routine. Qed.

(** C1: whatever the action and the package, an exception raised by
    [create], [generate_project_files] or [build] does not leave
    [docs_handler]: the handler returns, and the one message it logs has
    the word for the verb that failed and the package ([Source.Python]
    for the package source-python). *)
Theorem docs_handler_catches (action package : string) (w : World I) :
  caught (if bool_decide (package = "source-python")
          then "Source.Python" else package)
    w (docs_handler I action package w).
Proof.
  assert (Hverb : forall (sp : M I unit) (cu pl : string -> M I unit),
    (forall w, caught "Source.Python" w (sp w)) ->
    (forall w, caught package w (cu package w)) ->
    (forall w, caught package w (pl package w)) ->
    caught (if bool_decide (package = "source-python")
            then "Source.Python" else package) w
      ((if is_source_python package then sp
        else bind (is_custom_package I package) (fun c =>
          if c then cu package
          else bind (is_plugin I package) (fun p =>
            if p then pl package
            else log_message (not_a_package package)))) w)).
  { intros sp cu pl Hsp Hcu Hpl. unfold is_source_python.
    case_bool_decide; [apply Hsp|].
    apply caught_bind; [apply disk_only_is_custom_package|].
    intros [] w1; [apply Hcu|].
    apply caught_bind; [apply disk_only_is_plugin|].
    intros [] w2; [apply Hpl|apply caught_log_message]. }
  unfold docs_handler.
  destruct (String.eqb action "create");
    [|destruct (String.eqb action "generate");
      [|destruct (String.eqb action "build")]].
  - apply Hverb; intros w0;
      [ apply caught_create_source_python
      | apply caught_create_custom_package | apply caught_create_plugin ].
  - apply Hverb; intros w0;
      [ apply caught_generate_source_python
      | apply caught_generate_custom_package | apply caught_generate_plugin ].
  - apply Hverb; intros w0;
      [ apply caught_build_source_python
      | apply caught_build_custom_package | apply caught_build_plugin ].
  - apply caught_log_message.
Qed.

End Routing.

(** ** [str.replace] *)

Module ReplaceFacts.
Import PyStr PyStrFacts.

Lemma replace_go_skip old new a t :
  replace_go old new (String.length a) (a +:+ t) = replace_go old new O t.
Proof.
  induction a as [|c a IH]; [reflexivity|].
  rewrite app_cons. cbn [String.length replace_go]. apply IH.
Qed.

(** At an occurrence: the replacement, then on after the occurrence. *)
Lemma replace_here old new t :
  old <> EmptyString ->
  replace (old +:+ t) old new = new +:+ replace t old new.
Proof.
  intros Hne. destruct old as [|c old]; [done|]. unfold replace.
  pose proof (prefix_app (String c old) t) as Hp.
  rewrite app_cons in *. cbn [replace_go]. rewrite Hp.
  cbn [String.length]. rewrite Nat.sub_succ, Nat.sub_0_r.
  by rewrite replace_go_skip.
Qed.

(** Elsewhere: the character is kept. *)
Lemma replace_cons s c old new :
  String.prefix old (String c s) = false ->
  replace (String c s) old new = String c (replace s old new).
Proof. intros Hp. unfold replace. cbn [replace_go]. by rewrite Hp. Qed.

Lemma occurs_nil old : old <> EmptyString -> ~ occurs old EmptyString.
Proof.
  intros Hne (a & b & Heq). destruct a; [|done].
  rewrite app_nil_l in Heq. by destruct old.
Qed.

(** [old] occurs in [String c u] at the start or in [u]. *)
Lemma occurs_cons_inv old c u :
  occurs old (String c u) ->
  String.prefix old (String c u) = true \/ occurs old u.
Proof.
  intros (a & b & Heq). destruct a as [|c' a].
  - left. rewrite app_nil_l in Heq. rewrite Heq. apply prefix_app.
  - right. rewrite app_cons in Heq. injection Heq as _ ->. by exists a, b.
Qed.

Lemma prefix_app_r old u t :
  String.prefix old u = true -> String.prefix old (u +:+ t) = true.
Proof.
  intros [b ->]%prefix_inv. rewrite app_assoc. apply prefix_app.
Qed.

(** A text without [old] is left as it is. *)
Lemma replace_absent s old new : ~ occurs old s -> replace s old new = s.
Proof.
  induction s as [|c s IH]; intros Hno; [reflexivity|].
  rewrite replace_cons.
  - f_equal. apply IH. intros H. by apply Hno, occurs_cons.
  - destruct (String.prefix old (String c s)) eqn:Hp; [|done].
    destruct Hno. apply prefix_inv in Hp as [b ->]. apply occurs_here.
Qed.

(** [s.replace(old, new)], declaratively: [s] is cut at occurrences of
    [old] into pieces that are free of [old], and the result has [new]
    wherever [s] has one of these occurrences. *)
Lemma replace_pieces s old new :
  old <> EmptyString ->
  exists u us,
    s = u +:+ cat ((fun v => old +:+ v) <$> us)
    /\ replace s old new = u +:+ cat ((fun v => new +:+ v) <$> us)
    /\ ~ occurs old u /\ Forall (fun v => ~ occurs old v) us.
Proof.
  intros Hne.
  assert (Hn : exists n, (String.length s < n)%nat) by (eexists; apply Nat.lt_succ_diag_r).
  destruct Hn as [n Hn]. revert s Hn.
  induction n as [|n IH]; intros s Hn; [lia|].
  destruct (String.prefix old s) eqn:Hp.
  - apply prefix_inv in Hp as [t ->].
    destruct (IH t) as (u & us & Ht & Hr & Hu & Hus).
    { rewrite length_app in Hn. destruct old; [done|].
      cbn [String.length] in Hn. lia. }
    exists EmptyString, (u :: us). cbn [fmap list_fmap cat].
    rewrite !app_nil_l, replace_here, Hr, !app_assoc by done.
    repeat split; [by rewrite Ht|by apply occurs_nil|by constructor].
  - destruct s as [|c s].
    + exists EmptyString, []. repeat split; [by apply occurs_nil|constructor].
    + destruct (IH s) as (u & us & Hs & Hr & Hu & Hus).
      { cbn [String.length] in Hn. lia. }
      exists (String c u), us. rewrite replace_cons, Hr by done.
      rewrite !app_cons. repeat split; [by f_equal| |done].
      intros [Hpu|Hou]%occurs_cons_inv; [|done].
      rewrite Hs, <- app_cons in Hp.
      by rewrite (prefix_app_r _ _ _ Hpu) in Hp.
Qed.

End ReplaceFacts.

(** ** The handlers [dump] and [delay] *)

Section Handlers.
Context (I : Imports).
Import PyStr PyStrFacts ReplaceFacts.

Lemma for_each_log_message {A} (text : A -> string) (l : list A) (w : World I) :
  for_each l (fun x => log_message (text x)) w
  = (Returns tt,
     mkWorld (disk w) (manager w) (logged w ++ (text <$> l))
       (sphinx_calls w) (dump_calls w) (delays w)).
Proof.
  revert w. induction l as [|x l IH]; intros w; cbn [for_each fmap list_fmap].
  - rewrite List.app_nil_r. by destruct w.
  - unfold bind. cbn [log_message]. rewrite IH. cbn.
    by rewrite <- List.app_assoc.
Qed.

(** C9: [dump_data].  Here every exported name is [dump_] followed by
    a type that has no [dump_] in it, as the names of the dump functions
    are.  A type whose function is not exported gets the message that it
    is invalid and then one line per exported name, a tab and the name
    without its prefix, and no dump function is called.  Otherwise the
    one call made is that of the function of the type, on the file name,
    and nothing is logged. *)
Theorem dump_data_spec (dump_type filename : string) (w : World I) :
  Forall (fun name => exists t, name = "dump_" +:+ t /\ ~ occurs "dump_" t)
    (dumps_all I) ->
  ("dump_" +:+ dump_type ∉ dumps_all I ->
     exists types,
       Forall2 (fun name t => name = "dump_" +:+ t) (dumps_all I) types
       /\ dump_data I dump_type filename w
          = (Returns tt,
             mkWorld (disk w) (manager w)
               (logged w
                ++ ("Invalid dump_type " +:+ dq +:+ dump_type +:+ dq
                    +:+ ". The valid types are:")
                   :: ((fun t => tab +:+ t) <$> types))
               (sphinx_calls w) (dump_calls w) (delays w)))
  /\ ("dump_" +:+ dump_type ∈ dumps_all I ->
      let r := dumps_call I ("dump_" +:+ dump_type) filename (disk w) in
      dump_data I dump_type filename w
      = (match r.1 with None => Returns tt | Some e => Raises e end,
         mkWorld r.2 (manager w) (logged w) (sphinx_calls w)
           (dump_calls w ++ [("dump_" +:+ dump_type, filename)]) (delays w))).
Proof.
  intros Hall. split.
  - intros Hnot. unfold dump_data.
    rewrite bool_decide_eq_false_2 by done. cbn [negb].
    exists ((fun name => replace name "dump_" EmptyString) <$> dumps_all I).
    split.
    + apply Forall2_fmap_r, Forall_Forall2_diag.
      eapply Forall_impl; [exact Hall|].
      intros name (t & -> & Hfree). unfold compose. cbn beta.
      by rewrite replace_here, app_nil_l, replace_absent.
    + unfold bind. cbn [log_message]. rewrite for_each_log_message. cbn.
      rewrite <- List.app_assoc, <- list_fmap_compose. reflexivity.
  - intros Hin r. unfold dump_data.
    rewrite bool_decide_eq_true_2 by done. cbn [negb].
    unfold dumps_getattr_call. subst r.
    by destruct (dumps_call I _ filename (disk w)) as [[e|] d'].
Qed.

(** C7, as the code has it: [dump_data] and [docs_handler] report an
    argument they do not know through the logger and return.
    [delay_execution] does not look at its arguments itself: when
    [float] cannot convert the first token its [ValueError] leaves the
    handler (and without a token the [IndexError] does); nothing is
    logged and nothing is scheduled. *)
Theorem handlers_argument_errors (w : World I) :
  (forall token command, float I token = None ->
     delay_execution I (token :: command) w = (Raises (ValueError token), w))
  /\ delay_execution I [] w = (Raises IndexError, w)
  /\ (forall token command d, float I token = Some d ->
        delay_execution I (token :: command) w
        = (Returns tt,
           mkWorld (disk w) (manager w) (logged w) (sphinx_calls w)
             (dump_calls w) (delays w ++ [(d, join " " command +:+ nl)])))
  /\ (forall dump_type filename, "dump_" +:+ dump_type ∉ dumps_all I ->
        exists lines,
          dump_data I dump_type filename w
          = (Returns tt,
             mkWorld (disk w) (manager w)
               (logged w
                ++ ("Invalid dump_type " +:+ dq +:+ dump_type +:+ dq
                    +:+ ". The valid types are:") :: lines)
               (sphinx_calls w) (dump_calls w) (delays w)))
  /\ (forall action package,
        action <> "create" -> action <> "generate" -> action <> "build" ->
        docs_handler I action package w
        = (Returns tt,
           mkWorld (disk w) (manager w)
             (logged w
              ++ ["Invalid action: " +:+ dq +:+ action +:+ dq
                  +:+ ". Valid action are: create, generate and build"])
             (sphinx_calls w) (dump_calls w) (delays w))).
Proof.
  repeat split.
  - intros token command Hf. unfold delay_execution. by rewrite Hf.
  - intros token command d Hf. unfold delay_execution. by rewrite Hf.
  - intros dump_type filename Hnot. unfold dump_data.
    rewrite bool_decide_eq_false_2 by done. cbn [negb].
    eexists. unfold bind. cbn [log_message]. rewrite for_each_log_message.
    cbn. by rewrite <- List.app_assoc.
  - intros action package Hc Hg Hb.
    unfold docs_handler.
    destruct (String.eqb_spec action "create"); [done|].
    destruct (String.eqb_spec action "generate"); [done|].
    by destruct (String.eqb_spec action "build").
Qed.

End Handlers.

(** ** Files rewritten by the Source.Python routines *)

Section Rewrites.
Context (I : Imports).
Import PyStr PyStrFacts ReplaceFacts.

Lemma exists_run project (w : World I) :
  exists_ I project w = (Returns (project_exists I project (disk w)), w).
Proof. reflexivity. Qed.

Lemma with_disk_same (w : World I) : with_disk w (disk w) = w.
Proof. by destruct w. Qed.

Lemma lookup_entry_Some (dk : disk_t) d name entries :
  dk !! d = Some entries -> Path.lookup_entry dk (d, name) = entries !! name.
Proof. intros Hd. unfold Path.lookup_entry. cbn [fst snd]. by rewrite Hd. Qed.

(** Reading a file, emptying it and writing [text] to it. *)
Lemma rewrite_file (w : World I) d name entries data text :
  disk w !! d = Some entries ->
  entries !! name = Some (File data) ->
  (do _ <- Path.open_w (d, name); Path.write (d, name) text) w
  = (Returns tt, with_disk w (<[d := <[name := File text]> entries]> (disk w))).
Proof.
  intros Hd Hname. unfold bind, Path.open_w, Path.write, Path.store.
  cbn [fst snd]. rewrite Hd, Hname. cbn [set_disk disk].
  rewrite (lookup_entry_Some _ d name (<[name := File EmptyString]> entries))
    by apply lookup_insert_eq.
  rewrite !lookup_insert_eq. cbn [set_disk disk manager logged sphinx_calls
    dump_calls delays].
  rewrite app_nil_l, !insert_insert_eq. reflexivity.
Qed.

Lemma strip_module_path_step (w : World I) d name entries data :
  disk w !! d = Some entries ->
  entries !! name = Some (File data) ->
  strip_module_path I (d, name) w
  = (Returns tt,
     with_disk w
       (<[d := <[name := File (replace data "source-python." EmptyString)]>
                 entries]> (disk w))).
Proof.
  intros Hd Hname. unfold strip_module_path.
  unfold bind at 1. unfold Path.read_text.
  rewrite (lookup_entry_Some _ d name entries Hd), Hname.
  by apply (rewrite_file w d name entries data).
Qed.

(** What the loop over the files leaves in their directory. *)
Lemma strip_loop (fs : list (string * string)) d :
  forall (w : World I) entries,
    disk w !! d = Some entries ->
    NoDup fs ->
    (forall p, p ∈ fs -> p.1 = d /\ exists data, entries !! p.2 = Some (File data)) ->
    exists entries',
      for_each fs (strip_module_path I) w
      = (Returns tt, with_disk w (<[d := entries']> (disk w)))
      /\ forall name,
           entries' !! name
           = match entries !! name with
             | Some (File data) =>
                 if bool_decide ((d, name) ∈ fs)
                 then Some (File (replace data "source-python." EmptyString))
                 else Some (File data)
             | other => other
             end.
Proof.
  induction fs as [|[d' name] fs IH]; intros w entries Hd Hnd Hfs.
  - exists entries. split.
    + cbn [for_each]. unfold ret. by rewrite insert_id, with_disk_same.
    + intros name. by destruct (entries !! name) as [[]|].
  - apply NoDup_cons in Hnd as [Hnotin Hnd].
    destruct (Hfs (d', name)) as [Hd' [data Hdata]]; [apply list_elem_of_here|].
    cbn [fst snd] in *. subst d'.
    set (entries1 :=
      <[name := File (replace data "source-python." EmptyString)]> entries).
    destruct (IH (with_disk w (<[d := entries1]> (disk w))) entries1)
      as (entries' & Hrun & Hlook).
    { cbn [with_disk disk]. apply lookup_insert_eq. }
    { done. }
    { intros [d2 name2] Hin. destruct (Hfs (d2, name2)) as [Hd2 [data2 H2]].
      { by apply list_elem_of_further. }
      cbn [fst snd] in *. subst d2. split; [done|]. exists data2.
      unfold entries1. rewrite lookup_insert_ne; [done|].
      intros ->. done. }
    exists entries'. split.
    + cbn [for_each]. unfold bind.
      rewrite (strip_module_path_step w d name entries data Hd Hdata).
      fold entries1. rewrite Hrun. cbn [with_disk disk manager logged
        sphinx_calls dump_calls delays]. by rewrite insert_insert_eq.
    + intros n. rewrite Hlook. unfold entries1.
      destruct (decide (n = name)) as [->|Hne].
      * rewrite lookup_insert_eq, Hdata.
        rewrite (bool_decide_eq_false_2 ((d, name) ∈ fs)) by done.
        rewrite bool_decide_eq_true_2; [done|apply list_elem_of_here].
      * rewrite lookup_insert_ne by done.
        destruct (entries !! n) as [[data'|]|]; try done.
        assert (Heq : bool_decide ((d, n) ∈ (d, name) :: fs)
                      = bool_decide ((d, n) ∈ fs)).
        { apply bool_decide_ext. rewrite elem_of_cons.
          split; [|by right]. by intros [[= ?]|?]. }
        by rewrite Heq.
Qed.

Lemma isfile_entries (dk : disk_t) d name entries :
  dk !! d = Some entries ->
  Path.isfile dk (d, name) = true <-> exists data, entries !! name = Some (File data).
Proof.
  intros Hd. unfold Path.isfile. rewrite (lookup_entry_Some _ _ _ _ Hd).
  destruct (entries !! name) as [[]|]; split; try done; eauto.
  - by intros [? ?].
  - by intros [? ?].
Qed.

(** The files of a directory that [files] gives for a pattern of the
    form star, suffix: each once. *)
Lemma files_entries (w : World I) d suffix entries :
  disk w !! d = Some entries ->
  exists fs,
    Path.files d suffix w = (Returns fs, w)
    /\ NoDup fs
    /\ forall p, p ∈ fs <->
         p.1 = d /\ endswith p.2 suffix = true
         /\ exists data, entries !! p.2 = Some (File data).
Proof.
  intros Hd. unfold Path.files, bind, Path.listdir. rewrite Hd.
  unfold get_disk, ret. eexists. split; [reflexivity|]. split.
  - apply NoDup_filter, NoDup_filter.
    replace ((fun e : string * node => (d, e.1)) <$> map_to_list entries)
      with (pair d <$> (map_to_list entries).*1)
      by (by rewrite <- list_fmap_compose).
    apply (NoDup_fmap_2 _), NoDup_fst_map_to_list.
  - intros [d' name]. rewrite !list_elem_of_filter, list_elem_of_fmap.
    cbn [fst snd]. split.
    + intros (Hfile & Hend & [n node] & [= -> ->] & Hin). cbn [fst] in *.
      by apply (isfile_entries _ _ _ entries) in Hfile.
    + intros (-> & Hend & data & Hdata). split; [|split; [done|]].
      * apply (isfile_entries _ _ _ entries); eauto.
      * exists (name, File data). split; [done|].
        by apply elem_of_map_to_list.
Qed.

Lemma cat_fmap_nil (us : list string) :
  cat ((fun v => EmptyString +:+ v) <$> us) = cat us.
Proof. induction us as [|u us IH]; [done|]. cbn [fmap list_fmap cat]. by rewrite IH. Qed.

(** C5: when the project of Source.Python exists and
    [generate_project_files] returns, every file of the project source
    directory whose name ends in [.rst] is rewritten to the text it had
    with every occurrence of [source-python.] removed (the text is cut at
    these occurrences into pieces free of them, and the pieces are put
    together), every other entry and every other directory is as the
    generation left it, and the success message is logged.  For a custom
    package and for a plugin the disk is exactly as the generation left
    it.  (The source directory is taken to exist after the generation.) *)
Theorem generate_source_python_strips (w : World I) (d1 : disk_t)
    (entries : gmap string node) :
  let project := mkProject (SP_PACKAGES_PATH I) (SP_DOCS_PATH I) in
  let sd := project_source_dir I project in
  project_exists I project (disk w) = true ->
  sphinx_generate_project_files I project (disk w) = (None, d1) ->
  d1 !! sd = Some entries ->
  (exists entries',
     _generate_source_python_docs I w
     = (Returns tt,
        mkWorld (<[sd := entries']> d1) (manager w)
          (logged w ++ ["Project files have been generated for Source.Python."])
          (sphinx_calls w ++ [mkCall Generate project [] None])
          (dump_calls w) (delays w))
     /\ forall name,
          entries' !! name
          = match entries !! name with
            | Some (File data) =>
                if endswith name ".rst"
                then Some (File (replace data "source-python." EmptyString))
                else Some (File data)
            | other => other
            end)
  /\ (forall data, exists u us,
        data = u +:+ cat ((fun v => "source-python." +:+ v) <$> us)
        /\ replace data "source-python." EmptyString = u +:+ cat us
        /\ ~ occurs "source-python." u
        /\ Forall (fun v => ~ occurs "source-python." v) us)
  /\ (forall package d2,
        let cp := mkProject (Path.join (CUSTOM_PACKAGES_PATH I) package)
                    (Path.join (CUSTOM_PACKAGES_DOCS_PATH I) package) in
        project_exists I cp (disk w) = true ->
        sphinx_generate_project_files I cp (disk w) = (None, d2) ->
        _generate_custom_package_docs I package w
        = (Returns tt,
           mkWorld d2 (manager w)
             (logged w
              ++ ["Project files have been generated for custom package "
                  +:+ dq +:+ package +:+ dq +:+ "."])
             (sphinx_calls w ++ [mkCall Generate cp [] None])
             (dump_calls w) (delays w)))
  /\ (forall package d2,
        let pp := mkProject (Path.join (PLUGIN_PATH I) package)
                    (Path.join (PLUGIN_DOCS_PATH I) package) in
        project_exists I pp (disk w) = true ->
        sphinx_generate_project_files I pp (disk w) = (None, d2) ->
        _generate_plugin_docs I package w
        = (Returns tt,
           mkWorld d2 (manager w)
             (logged w
              ++ ["Project files have been generated for plugin "
                  +:+ dq +:+ package +:+ dq +:+ "."])
             (sphinx_calls w ++ [mkCall Generate pp [] None])
             (dump_calls w) (delays w))).
Proof.
  intros project sd Hex Hgen Hsd. split; [|split; [|split]].
  - set (w1 := mkWorld d1 (manager w) (logged w)
                 (sphinx_calls w ++ [mkCall Generate project [] None])
                 (dump_calls w) (delays w)).
    destruct (files_entries w1 sd ".rst" entries Hsd) as (fs & Hfiles & Hnd & Hfs).
    destruct (strip_loop fs sd w1 entries Hsd Hnd) as (entries' & Hloop & Hlook).
    { intros p Hp. apply Hfs in Hp as (? & _ & ?). done. }
    exists entries'. split.
    + unfold _generate_source_python_docs. fold project.
      unfold bind at 1. rewrite exists_run, Hex.
      unfold try_except_else, generate_project_files, sphinx.
      rewrite Hgen. fold w1. fold sd. unfold bind.
      rewrite Hfiles, Hloop. reflexivity.
    + intros name. rewrite Hlook.
      destruct (entries !! name) as [[data|]|] eqn:Hname; try done.
      destruct (endswith name ".rst") eqn:Hend.
      * rewrite bool_decide_eq_true_2; [done|].
        apply Hfs. cbn [fst snd]. eauto.
      * rewrite bool_decide_eq_false_2; [done|].
        intros (_ & Hend' & _)%Hfs. cbn [snd] in Hend'. congruence.
  - intros data.
    destruct (replace_pieces data "source-python." EmptyString)
      as (u & us & H1 & H2 & H3 & H4); [done|].
    exists u, us. by rewrite <- (cat_fmap_nil us).
  - intros package d2 cp Hcp Hgen2.
    unfold _generate_custom_package_docs, exists_, bind, get_disk, ret.
    fold cp. rewrite Hcp.
    unfold try_except_else, generate_project_files, sphinx. by rewrite Hgen2.
  - intros package d2 pp Hpp Hgen2.
    unfold _generate_plugin_docs, exists_, bind, get_disk, ret.
    fold pp. rewrite Hpp.
    unfold try_except_else, generate_project_files, sphinx. by rewrite Hgen2.
Qed.

(** *** The lines of [conf.py] *)

Lemma readlines_cat s : cat (readlines s) = s.
Proof.
  induction s as [|c s IH]; [reflexivity|]. cbn [readlines].
  destruct (Ascii.eqb c LF).
  - cbn [cat]. by rewrite IH.
  - destruct (readlines s) as [|l ls]; cbn [cat] in *.
    + by rewrite <- IH.
    + by rewrite app_cons, IH.
Qed.

(** The first word of a text that starts with no white space. *)
Lemma span_word_spec s :
  exists word rest,
    span_word s = (word, rest) /\ s = word +:+ rest
    /\ no_space word = true
    /\ (rest = EmptyString \/ exists c r, rest = String c r /\ isspace c = true).
Proof.
  induction s as [|c s (word & rest & Hspan & Hs & Hword & Hrest)].
  - exists EmptyString, EmptyString. repeat split. by left.
  - cbn [span_word]. destruct (isspace c) eqn:Hc.
    + exists EmptyString, (String c s). repeat split. right. eauto.
    + exists (String c word), rest. rewrite Hspan.
      repeat split; [|cbn [no_space]; by rewrite Hc|done].
      by rewrite app_cons, <- Hs.
Qed.

Lemma first_word line (w : World I) :
  startswith_any line ["version"; "release"] = true ->
  first I (split_maxsplit1 line) w = (Returns (span_word line).1, w).
Proof.
  intros Hstart.
  assert (Hl : lstrip line = line /\ line <> EmptyString).
  { unfold startswith_any, startswith in Hstart. cbn [existsb] in Hstart.
    rewrite orb_false_r in Hstart.
    apply orb_true_iff in Hstart as [[b ->]%prefix_inv|[b ->]%prefix_inv];
      by split. }
  destruct Hl as [Hl Hne]. unfold split_maxsplit1. rewrite Hl.
  destruct line as [|c line]; [done|].
  destruct (span_word (String c line)) as [word rest].
  by destruct (lstrip rest).
Qed.

Lemma write_step (w : World I) d name entries data text :
  disk w !! d = Some entries ->
  entries !! name = Some (File data) ->
  Path.write (d, name) text w
  = (Returns tt,
     with_disk w (<[d := <[name := File (data +:+ text)]> entries]> (disk w))).
Proof.
  intros Hd Hname. unfold Path.write, Path.store.
  rewrite (lookup_entry_Some _ d name entries Hd), Hname.
  cbn [fst snd]. by rewrite Hd.
Qed.

Lemma update_version_line_step (w : World I) d name entries data line :
  disk w !! d = Some entries ->
  entries !! name = Some (File data) ->
  update_version_line I (d, name) line w
  = (Returns tt,
     with_disk w
       (<[d := <[name := File (data +:+ Layout.conf_line (VERSION I) line)]>
                 entries]> (disk w))).
Proof.
  intros Hd Hname. unfold update_version_line, Layout.conf_line.
  destruct (startswith_any line ["version"; "release"]) eqn:Hstart.
  - unfold bind. rewrite (first_word line w Hstart). unfold ret.
    by apply write_step.
  - unfold bind, ret. by apply write_step.
Qed.

Lemma update_version_loop lines d name :
  forall (w : World I) entries data,
    disk w !! d = Some entries ->
    entries !! name = Some (File data) ->
    for_each lines (update_version_line I (d, name)) w
    = (Returns tt,
       with_disk w
         (<[d := <[name := File (data
                     +:+ cat (Layout.conf_line (VERSION I) <$> lines))]>
                   entries]> (disk w))).
Proof.
  induction lines as [|line lines IH]; intros w entries data Hd Hname.
  - cbn [for_each fmap list_fmap cat]. unfold ret.
    rewrite app_nil_r, (insert_id entries name (File data) Hname).
    by rewrite (insert_id (disk w) d entries Hd), with_disk_same.
  - cbn [for_each fmap list_fmap cat]. unfold bind.
    rewrite (update_version_line_step w d name entries data line Hd Hname).
    erewrite IH; [|apply lookup_insert_eq|apply lookup_insert_eq].
    cbn [with_disk disk manager logged sphinx_calls dump_calls delays].
    by rewrite !insert_insert_eq, app_assoc.
Qed.

Lemma open_w_step (w : World I) d name entries data :
  disk w !! d = Some entries ->
  entries !! name = Some (File data) ->
  Path.open_w (d, name) w
  = (Returns tt,
     with_disk w (<[d := <[name := File EmptyString]> entries]> (disk w))).
Proof.
  intros Hd Hname. unfold Path.open_w, Path.store. cbn [fst snd].
  by rewrite Hd, Hname.
Qed.

(** *** Text mode and the bytes of [conf.py] *)

Lemma string_app_inv_head (s t u : string) : s +:+ t = s +:+ u -> t = u.
Proof.
  induction s as [|c s IH]; [done|]. rewrite !app_cons.
  intros [= H]. by apply IH.
Qed.

Lemma write_newlines_app linesep s t :
  TextMode.write_newlines linesep (s +:+ t)
  = TextMode.write_newlines linesep s +:+ TextMode.write_newlines linesep t.
Proof.
  induction s as [|c s IH]; [done|]. rewrite app_cons.
  cbn [TextMode.write_newlines]. by rewrite IH, app_assoc.
Qed.

Lemma write_newlines_cat linesep (ls : list string) :
  TextMode.write_newlines linesep (cat ls)
  = cat (TextMode.write_newlines linesep <$> ls).
Proof.
  induction ls as [|l ls IH]; [done|]. rewrite fmap_cons. cbn [cat].
  by rewrite write_newlines_app, IH.
Qed.

(** A text without a line feed is written as it is. *)
Lemma write_newlines_body linesep body :
  Run.no_lf body = true -> TextMode.write_newlines linesep body = body.
Proof.
  induction body as [|c body IH]; [done|].
  cbn [Run.no_lf TextMode.write_newlines].
  intros [Hc Hb]%andb_true_iff. destruct (Ascii.eqb c LF); [done|].
  by rewrite app_cons, app_nil_l, (IH Hb).
Qed.

Lemma write_newlines_nl linesep : TextMode.write_newlines linesep nl = linesep.
Proof. unfold nl. cbn [TextMode.write_newlines]. apply app_nil_r. Qed.

(** Writing with the line feed as line separator changes nothing. *)
Lemma write_newlines_posix text :
  TextMode.write_newlines TextMode.posix text = text.
Proof.
  induction text as [|c text IH]; [done|]. cbn [TextMode.write_newlines].
  rewrite IH. destruct (Ascii.eqb c LF) eqn:Hc; [|done].
  by apply Ascii.eqb_eq in Hc as ->.
Qed.

(** Reading bytes without a carriage return changes nothing. *)
Lemma read_newlines_no_cr bytes :
  TextMode.no_cr bytes = true -> TextMode.read_newlines bytes = bytes.
Proof.
  induction bytes as [|c bytes IH]; [done|].
  cbn [TextMode.no_cr TextMode.read_newlines].
  intros [Hc Hb]%andb_true_iff. destruct (Ascii.eqb c TextMode.CR); [done|].
  by rewrite (IH Hb).
Qed.

(** The lines that [readlines] gives for the text of a file are the
    lines of its bytes, each line end read as a line feed. *)
Lemma byte_lines_spec n bytes :
  (String.length bytes < n)%nat ->
  readlines (TextMode.read_newlines bytes)
  = TextMode.line_text <$> TextMode.byte_lines bytes
  /\ cat (TextMode.line_bytes <$> TextMode.byte_lines bytes) = bytes
  /\ Forall (fun l => Run.no_lf l.1 = true) (TextMode.byte_lines bytes).
Proof.
  assert (Hlfcr : Ascii.eqb LF TextMode.CR = false) by reflexivity.
  assert (Hlines : forall s, readlines (String LF s) = nl :: readlines s)
    by reflexivity.
  revert bytes. induction n as [|n IH]; intros bytes Hlen; [lia|].
  destruct bytes as [|c rest]; [by repeat split|].
  cbn [String.length] in Hlen.
  cbn [TextMode.read_newlines TextMode.byte_lines].
  destruct (Ascii.eqb c LF) eqn:Hlf.
  { apply Ascii.eqb_eq in Hlf as ->. rewrite Hlfcr, Hlines, fmap_cons.
    destruct (IH rest ltac:(lia)) as (H1 & H2 & H3).
    split; [by rewrite H1|]. split; [|by constructor].
    rewrite fmap_cons. cbn [cat]. by rewrite H2. }
  destruct (Ascii.eqb c TextMode.CR) eqn:Hcr.
  { apply Ascii.eqb_eq in Hcr as ->. rewrite Hlines.
    destruct rest as [|c' rest']; [by repeat constructor|].
    destruct (Ascii.eqb c' LF) eqn:Hlf'.
    - apply Ascii.eqb_eq in Hlf' as ->. cbn [String.length] in Hlen.
      destruct (IH rest' ltac:(lia)) as (H1 & H2 & H3).
      rewrite !fmap_cons. split; [by rewrite H1|]. split; [|by constructor].
      cbn [cat]. by rewrite H2.
    - destruct (IH (String c' rest') ltac:(lia)) as (H1 & H2 & H3).
      rewrite !fmap_cons. split; [by rewrite H1|]. split; [|by constructor].
      cbn [cat]. by rewrite H2. }
  destruct (IH rest ltac:(lia)) as (H1 & H2 & H3).
  cbn [readlines]. rewrite Hlf, H1.
  destruct (TextMode.byte_lines rest) as [|[body e] ls].
  - cbn [cat fmap list_fmap] in *. subst rest. repeat split.
    repeat constructor. cbn [fst Run.no_lf]. by rewrite Hlf.
  - rewrite !fmap_cons in *. cbn [cat] in *. split; [done|].
    split; [unfold TextMode.line_bytes in *; cbn [fst snd] in *;
            by rewrite <- H2|].
    apply Forall_cons in H3 as [Hb H3]. constructor; [|done].
    cbn [fst Run.no_lf] in *. by rewrite Hlf, Hb.
Qed.

(** C6: when the project of Source.Python exists (and its source
    directory has the file [conf.py]), build first rewrites [conf.py]
    line by line, in text mode: a line that starts with version or
    release becomes its first word followed by an equal sign and the
    version, between quotes and after a space, and a line feed; every
    other line is written back with the text it was read with.  On the
    bytes of the file: a line is read with its line end (CR LF, CR or a
    line feed) as a line feed and written with the line separator of
    the platform for it, so that the bytes of a line that starts with
    neither word are its body and the line separator, and are the bytes
    it had exactly when its line end was the line separator or it had
    no line end.  [build] is then called on the disk with the rewritten
    file; whether it returns or raises, the routine returns, logs the
    message for the case, and the disk is the one [build] left: nothing
    is rolled back. *)
Theorem build_source_python_rewrites_conf (w : World I)
    (entries : gmap string node) (bytes linesep : string) :
  let project := mkProject (SP_PACKAGES_PATH I) (SP_DOCS_PATH I) in
  let sd := project_source_dir I project in
  let data := TextMode.read_newlines bytes in
  project_exists I project (disk w) = true ->
  disk w !! sd = Some entries ->
  entries !! "conf.py" = Some (File data) ->
  let conf := cat (Layout.conf_line (VERSION I) <$> readlines data) in
  let d1 := <[sd := <["conf.py" := File conf]> entries]> (disk w) in
  let r := sphinx_build I project d1 in
  _build_source_python_docs I w
  = (Returns tt,
     mkWorld r.2 (manager w)
       (logged w
        ++ [match r.1 with
            | None => "Project files have been built for Source.Python."
            | Some _ =>
                "An error occured while building project files for Source.Python."
            end])
       (sphinx_calls w ++ [mkCall Build project [] r.1])
       (dump_calls w) (delays w))
  /\ cat (readlines data) = data
  /\ (forall line,
       (startswith line "version" = false ->
        startswith line "release" = false ->
        Layout.conf_line (VERSION I) line = line)
       /\ (startswith line "version" = true \/ startswith line "release" = true ->
           exists word rest,
             line = word +:+ rest
             /\ no_space word = true
             /\ (rest = EmptyString
                 \/ exists c rest', rest = String c rest' /\ isspace c = true)
             /\ Layout.conf_line (VERSION I) line
                = word +:+ " = ' " +:+ VERSION I +:+ "'" +:+ nl))
  /\ cat (TextMode.line_bytes <$> TextMode.byte_lines bytes) = bytes
  /\ readlines data = TextMode.line_text <$> TextMode.byte_lines bytes
  /\ TextMode.write_newlines linesep conf
     = cat ((fun l => TextMode.write_newlines linesep
                        (Layout.conf_line (VERSION I) (TextMode.line_text l)))
            <$> TextMode.byte_lines bytes)
  /\ forall l,
       l ∈ TextMode.byte_lines bytes ->
       startswith (TextMode.line_text l) "version" = false ->
       startswith (TextMode.line_text l) "release" = false ->
       TextMode.write_newlines linesep
         (Layout.conf_line (VERSION I) (TextMode.line_text l))
       = TextMode.line_written linesep l
       /\ (TextMode.line_written linesep l = TextMode.line_bytes l
           <-> l.2 = EmptyString \/ l.2 = linesep).
Proof.
  intros project sd data Hex Hsd Hconf conf d1 r.
  destruct (byte_lines_spec (S (String.length bytes)) bytes ltac:(lia))
    as (Hlines & Hbytes & Hbodies).
  assert (Hplain : forall line,
    startswith line "version" = false -> startswith line "release" = false ->
    Layout.conf_line (VERSION I) line = line).
  { intros line. unfold Layout.conf_line, startswith_any. cbn [existsb].
    rewrite orb_false_r. by intros -> ->. }
  split; [|split; [|split; [|split; [|split; [|split]]]]].
  - unfold _build_source_python_docs. fold project sd.
    unfold bind at 1. rewrite exists_run, Hex.
    unfold bind at 1. unfold Path.read_text.
    rewrite (lookup_entry_Some _ sd "conf.py" entries Hsd), Hconf.
    unfold bind at 1.
    rewrite (open_w_step w sd "conf.py" entries data Hsd Hconf).
    unfold bind at 1.
    rewrite (update_version_loop (readlines data) sd "conf.py" _
               (<["conf.py" := File EmptyString]> entries) EmptyString);
      [|apply lookup_insert_eq|apply lookup_insert_eq].
    cbn [with_disk disk manager logged sphinx_calls dump_calls delays].
    rewrite !insert_insert_eq, app_nil_l. fold conf. fold d1.
    unfold try_except_else, build, sphinx.
    cbn [with_disk disk manager logged sphinx_calls dump_calls delays].
    subst r. by destruct (sphinx_build I project d1) as [[e|] d2].
  - apply readlines_cat.
  - intros line. split; [apply Hplain|].
    unfold Layout.conf_line, startswith_any. cbn [existsb].
    rewrite orb_false_r. intros Hstart.
    assert (Hor : startswith line "version" || startswith line "release" = true)
      by (by apply orb_true_iff).
    rewrite Hor.
    destruct (span_word_spec line) as (word & rest & Hspan & Hline & Hw & Hr).
    exists word, rest. by rewrite Hspan.
  - exact Hbytes.
  - exact Hlines.
  - subst conf data. rewrite Hlines, write_newlines_cat, <- !list_fmap_compose.
    done.
  - intros [body e] Hl Hv Hr. rewrite (Hplain _ Hv Hr).
    apply (proj1 (Forall_forall _ _) Hbodies) in Hl. cbn [fst] in Hl.
    unfold TextMode.line_text, TextMode.line_written, TextMode.line_bytes.
    cbn [fst snd]. split.
    + rewrite write_newlines_app, (write_newlines_body _ _ Hl).
      destruct e; [done|]. by rewrite write_newlines_nl.
    + split.
      * intros He%string_app_inv_head. destruct e; [by left|by right].
      * intros [->| ->]; [done|]. by destruct linesep.
Qed.

End Rewrites.

(** * The properties on the small installation *)

Section OccursDecided.
Import PyStr PyStrFacts ReplaceFacts.

Lemma occursb_complete old s : occurs old s -> occursb old s = true.
Proof.
  induction s as [|c s IH]; intros Hocc; cbn [occursb].
  - destruct Hocc as (a & b & Heq). destruct a; [|done].
    rewrite app_nil_l in Heq. by destruct old.
  - apply orb_true_iff.
    destruct (occurs_cons_inv _ _ _ Hocc) as [Hp|Ho]; [by left|].
    right. by apply IH.
Qed.

End OccursDecided.

Section Witnesses.
Import PyStr PyStrFacts ReplaceFacts.

(** The plugins zulu, alpha and mu are listed as alpha, mu, zulu. *)
Lemma print_plugins_report_witness :
  NoDup (manager Demo.fresh).*1
  /\ exists entries : list (string * option PluginInfo),
       entries ≡ₚ Demo.plugins
       /\ StronglySorted String.le entries.*1
       /\ print_plugins (Demo.imports false) Demo.fresh
          = log_message (Layout.plugins_report "[SP] " "Loaded plugins:" entries)
              Demo.fresh.
Proof.
  assert (Hnd : NoDup (manager Demo.fresh).*1).
  { apply (bool_decide_unpack _). by vm_compute. }
  split; [exact Hnd|].
  destruct (print_plugins_report (Demo.imports false) Demo.fresh Hnd)
    as (entries & Hperm & Hsorted & Hrun & _).
  exists entries. split; [exact Hperm|]. split; [exact Hsorted|].
  exact (Hrun Demo.fresh (Permutation_refl _)).
Defined.

(** The six dump functions of the installation. *)
Lemma dump_data_spec_witness :
  Forall (fun name => exists t, name = "dump_" +:+ t /\ ~ occurs "dump_" t)
    (dumps_all (Demo.imports false))
  /\ (dump_data (Demo.imports false) "convars" "out" Demo.fresh).1 = Returns tt
  /\ exists types,
       Forall2 (fun name t => name = "dump_" +:+ t)
         (dumps_all (Demo.imports false)) types
       /\ logged (dump_data (Demo.imports false) "players" "out" Demo.fresh).2
          = ("Invalid dump_type " +:+ dq +:+ "players" +:+ dq
             +:+ ". The valid types are:")
            :: ((fun t => tab +:+ t) <$> types).
Proof.
  assert (Hall : Forall (fun name => exists t,
                   name = "dump_" +:+ t /\ ~ occurs "dump_" t)
                   (dumps_all (Demo.imports false))).
  { cbn [dumps_all Demo.imports].
    repeat first
      [ apply Forall_nil_2
      | apply Forall_cons_2;
        [eexists; split;
         [reflexivity|intros Hocc%occursb_complete; by vm_compute in Hocc]|] ]. }
  split; [exact Hall|].
  destruct (dump_data_spec (Demo.imports false) "convars" "out" Demo.fresh Hall)
    as [_ Hknown].
  destruct (dump_data_spec (Demo.imports false) "players" "out" Demo.fresh Hall)
    as [Hunknown _].
  split.
  - rewrite Hknown; [reflexivity|]. apply (bool_decide_unpack _). by vm_compute.
  - destruct Hunknown as (types & Htypes & Hrun).
    { apply (bool_decide_unpack _). by vm_compute. }
    exists types. split; [exact Htypes|]. by rewrite Hrun.
Defined.

(** Generation for Source.Python on the small installation: the module
    paths of [modules.rst] lose their first component, [conf.py] is kept. *)
Lemma generate_source_python_strips_witness :
  project_exists (Demo.imports false) Demo.sp (disk Demo.created) = true
  /\ sphinx_generate_project_files (Demo.imports false) Demo.sp
       (disk Demo.created) = (None, Demo.generated_disk)
  /\ Demo.generated_disk !! Demo.source_dir Demo.sp
     = Some Demo.generated_entries
  /\ exists entries',
       _generate_source_python_docs (Demo.imports false) Demo.created
       = (Returns tt,
          mkWorld (<[Demo.source_dir Demo.sp := entries']> Demo.generated_disk)
            Demo.plugins
            ["Project files have been generated for Source.Python."]
            [mkCall Generate Demo.sp [] None] [] [])
       /\ entries' !! "modules.rst"
          = Some (File ("core package" +:+ nl +:+ "core.command"))
       /\ entries' !! "conf.py" = Some (File Demo.conf_py).
Proof.
  assert (H1 : project_exists (Demo.imports false) Demo.sp (disk Demo.created)
               = true) by (by vm_compute).
  assert (H2 : sphinx_generate_project_files (Demo.imports false) Demo.sp
                 (disk Demo.created) = (None, Demo.generated_disk))
    by (by vm_compute).
  assert (H3 : Demo.generated_disk !! Demo.source_dir Demo.sp
               = Some Demo.generated_entries) by (by vm_compute).
  split; [exact H1|]. split; [exact H2|]. split; [exact H3|].
  destruct (generate_source_python_strips (Demo.imports false) Demo.created
              Demo.generated_disk Demo.generated_entries H1 H2 H3)
    as [(entries' & Hrun & Hlook) _].
  exists entries'. split; [exact Hrun|].
  rewrite !Hlook. split; by vm_compute.
Defined.

(** Build for Source.Python when [build] raises: the routine returns,
    reports the failure, and [conf.py] stays rewritten.  The lines of
    the file end in a line feed: on Linux the first line, which starts
    with neither word, has the bytes it had. *)
Lemma build_source_python_rewrites_conf_witness :
  project_exists (Demo.imports true) Demo.sp (disk Demo.failing) = true
  /\ disk Demo.failing !! Demo.source_dir Demo.sp = Some Demo.created_entries
  /\ Demo.created_entries !! "conf.py"
     = Some (File (TextMode.read_newlines Demo.conf_py))
  /\ (_build_source_python_docs (Demo.imports true) Demo.failing).1
     = Returns tt
  /\ logged (_build_source_python_docs (Demo.imports true) Demo.failing).2
     = ["An error occured while building project files for Source.Python."]
  /\ Path.lookup_entry
       (disk (_build_source_python_docs (Demo.imports true) Demo.failing).2)
       (Demo.source_dir Demo.sp, "conf.py")
     = Some (File ("project = 'x'" +:+ nl +:+ "version = ' 70'" +:+ nl
                   +:+ "release = ' 70'" +:+ nl +:+ "html_theme = 'y'"))
  /\ TextMode.write_newlines TextMode.posix
       (Layout.conf_line "70" (TextMode.line_text ("project = 'x'", nl)))
     = TextMode.line_bytes ("project = 'x'", nl).
Proof.
  assert (H1 : project_exists (Demo.imports true) Demo.sp (disk Demo.failing)
               = true) by reflexivity.
  assert (H2 : disk Demo.failing !! Demo.source_dir Demo.sp
               = Some Demo.created_entries) by reflexivity.
  assert (H3 : Demo.created_entries !! "conf.py"
               = Some (File (TextMode.read_newlines Demo.conf_py)))
    by reflexivity.
  split; [exact H1|]. split; [exact H2|]. split; [exact H3|].
  destruct (build_source_python_rewrites_conf (Demo.imports true) Demo.failing
              Demo.created_entries Demo.conf_py TextMode.posix H1 H2 H3)
    as (Hrun & _ & _ & _ & _ & _ & Hline).
  rewrite Hrun.
  split; [reflexivity|]. split; [by vm_compute|]. split; [by vm_compute|].
  destruct (Hline ("project = 'x'", nl)) as [Hwritten Hsame];
    [vm_compute; constructor|reflexivity|reflexivity|].
  transitivity (TextMode.line_written TextMode.posix ("project = 'x'", nl));
    [exact Hwritten|]. apply Hsame. by right.
Defined.

(** Create on the existing project and generate on a missing one. *)
Lemma lifecycle_noop_witness :
  project_exists (Demo.imports false) Demo.sp (disk Demo.created) = true
  /\ only_reports "already exists" Demo.created
       (_create_source_python_docs (Demo.imports false) Demo.created)
  /\ only_reports "does not exist" Demo.created
       (_generate_plugin_docs (Demo.imports false) "myplugin" Demo.created).
Proof.
  assert (H1 : project_exists (Demo.imports false) Demo.sp (disk Demo.created)
               = true) by (by vm_compute).
  destruct (lifecycle_noop (Demo.imports false) "myplugin" Demo.created)
    as (Hsp & _ & _ & _ & _ & Hpl).
  split; [exact H1|]. split; [exact (Hsp H1)|].
  apply Hpl. by vm_compute.
Defined.


(** Every entry of a small directory, one by one. *)
Ltac each_entry H :=
  apply elem_of_map_to_list in H;
  let l := fresh "l" in
  let Hl := fresh "Hl" in
  remember (map_to_list _) as l eqn:Hl in H; vm_compute in Hl; subst l;
  repeat (apply elem_of_cons in H as [H|H];
          [simplify_eq; by vm_compute|]);
  by apply elem_of_nil in H.

(** [sp docs build unknownpkg]: the rejection, and nothing else. *)
Lemma docs_handler_rejections_witness :
  "unknownpkg" <> "source-python"
  /\ disk Demo.fresh !! CUSTOM_PACKAGES_PATH (Demo.imports false)
     = Some Demo.custom_entries
  /\ disk Demo.fresh !! PLUGIN_PATH (Demo.imports false)
     = Some Demo.plugin_entries
  /\ docs_handler (Demo.imports false) "build" "unknownpkg" Demo.fresh
     = log_message (not_a_package "unknownpkg") Demo.fresh
  /\ docs_handler (Demo.imports false) "destroy" "unknownpkg" Demo.fresh
     = log_message ("Invalid action: " +:+ dq +:+ "destroy" +:+ dq
                    +:+ ". Valid action are: create, generate and build")
         Demo.fresh.
Proof.
  destruct (docs_handler_rejections (Demo.imports false) "build" "unknownpkg"
              Demo.fresh) as [_ Hreject].
  destruct (docs_handler_rejections (Demo.imports false) "destroy"
              "unknownpkg" Demo.fresh) as [Husage _].
  assert (H1 : "unknownpkg" <> "source-python") by done.
  assert (H2 : disk Demo.fresh !! CUSTOM_PACKAGES_PATH (Demo.imports false)
               = Some Demo.custom_entries) by (by vm_compute).
  assert (H3 : disk Demo.fresh !! PLUGIN_PATH (Demo.imports false)
               = Some Demo.plugin_entries) by (by vm_compute).
  split; [exact H1|]. split; [exact H2|]. split; [exact H3|]. split.
  - apply (Hreject Demo.custom_entries Demo.plugin_entries); try done.
    + by right; right.
    + intros name [node Hn]. each_entry Hn.
    + intros name Hn. each_entry Hn.
  - by apply Husage.
Defined.

(** [sp delay abc say hi]: the [ValueError] of [float] leaves the
    handler; nothing is logged and nothing is scheduled. *)
Lemma delay_execution_escapes :
  (delay_execution (Demo.imports false) ["abc"; "say"; "hi"] Demo.fresh).1
  = Raises (ValueError "abc")
  /\ logged
       (delay_execution (Demo.imports false) ["abc"; "say"; "hi"] Demo.fresh).2
     = logged Demo.fresh
  /\ delays
       (delay_execution (Demo.imports false) ["abc"; "say"; "hi"] Demo.fresh).2
     = [].
Proof. by vm_compute. Qed.

(** Build for Source.Python does not leave every line that starts with
    neither version nor release with the bytes it had: on Linux the
    first line of a [conf.py] whose lines end in CR LF comes back
    ending in a line feed, and on Windows the first line of one whose
    lines end in a line feed comes back ending in CR LF. *)
Lemma conf_line_end_rewritten :
  (exists after,
     TextMode.written_bytes TextMode.posix
       (disk (_build_source_python_docs (Demo.imports false)
                (Demo2.with_conf_bytes Demo2.crlf_bytes)).2)
       (Demo.source_dir Demo.sp, "conf.py") = Some after
     /\ TextMode.byte_lines Demo2.crlf_bytes !! 0%nat
        = Some ("project = 'x'", TextMode.windows)
     /\ startswith_any (TextMode.line_text ("project = 'x'", TextMode.windows))
          ["version"; "release"] = false
     /\ TextMode.byte_lines after !! 0%nat = Some ("project = 'x'", nl)
     /\ TextMode.line_bytes ("project = 'x'", TextMode.windows)
        <> TextMode.line_bytes ("project = 'x'", nl))
  /\ (exists after,
        TextMode.written_bytes TextMode.windows
          (disk (_build_source_python_docs (Demo.imports false)
                   (Demo2.with_conf_bytes Demo2.lf_bytes)).2)
          (Demo.source_dir Demo.sp, "conf.py") = Some after
        /\ TextMode.byte_lines Demo2.lf_bytes !! 0%nat
           = Some ("project = 'x'", nl)
        /\ startswith_any (TextMode.line_text ("project = 'x'", nl))
             ["version"; "release"] = false
        /\ TextMode.byte_lines after !! 0%nat
           = Some ("project = 'x'", TextMode.windows)
        /\ TextMode.line_bytes ("project = 'x'", nl)
           <> TextMode.line_bytes ("project = 'x'", TextMode.windows)).
Proof.
  split.
  - exists ("project = 'x'" +:+ nl +:+ "version = ' 70'" +:+ nl).
    repeat split; [by vm_compute..|]. by intros [=].
  - exists ("project = 'x'" +:+ TextMode.windows
            +:+ "version = ' 70'" +:+ TextMode.windows).
    repeat split; [by vm_compute..|]. by intros [=].
Qed.

End Witnesses.

(** * Examples *)

Example replace_example :
  PyStr.replace "source-python.core source-python.x" "source-python."
    EmptyString
  = "core x".
Proof. reflexivity. Qed.

Example readlines_example :
  PyStr.readlines ("a" +:+ PyStr.nl +:+ PyStr.nl +:+ "b")
  = ["a" +:+ PyStr.nl; PyStr.nl; "b"].
Proof. reflexivity. Qed.

Example split_example :
  PyStr.split_maxsplit1 "  version =  '1.0'  " = ["version"; "=  '1.0'  "].
Proof. reflexivity. Qed.

Example namebase_example :
  Path.namebase ("/packages/custom", "mypackage.py") = "mypackage"
  /\ Path.namebase ("/plugins", ".hidden") = ".hidden"
  /\ Path.namebase ("/plugins", "a.tar.gz") = "a.tar".
Proof. by vm_compute. Qed.

Example delay_example :
  delays (delay_execution (Demo.imports false) ["5"; "say"; "hi"] Demo.fresh).2
  = [(5%N, "say hi" +:+ PyStr.nl)].
Proof. by vm_compute. Qed.

(** A failing build of a plugin project is reported, not raised. *)
Example failing_build_example :
  let w := Demo.world (I:=Demo.imports true)
             (<["/docs/plugins/myplugin" := ∅]> Demo.fresh_disk) [] in
  (docs_handler (Demo.imports true) "build" "myplugin" w).1 = Returns tt
  /\ logged (docs_handler (Demo.imports true) "build" "myplugin" w).2
     = ["An error occured while building project files for plugin "
        +:+ PyStr.dq +:+ "myplugin" +:+ PyStr.dq +:+ "."].
Proof. by vm_compute. Qed.

Example credits_example :
  logged (print_credits (Demo.imports false) Demo.fresh).2
  = ["[SP] Credits:" +:+ PyStr.nl +:+ rule +:+ PyStr.nl +:+ PyStr.nl
     +:+ PyStr.tab +:+ "Project Leaders:" +:+ PyStr.nl
     +:+ PyStr.tab +:+ PyStr.tab +:+ "Ayuto               Developer" +:+ PyStr.nl
     +:+ PyStr.tab +:+ PyStr.tab +:+ "satoon101           Developer" +:+ PyStr.nl
     +:+ PyStr.nl
     +:+ PyStr.tab +:+ "Contributors:" +:+ PyStr.nl
     +:+ PyStr.tab +:+ PyStr.tab +:+ "a-name-of-twenty-one!Tester" +:+ PyStr.nl
     +:+ PyStr.nl
     +:+ rule +:+ PyStr.nl +:+ PyStr.nl].
Proof. by vm_compute. Qed.

Example plugins_example :
  logged (print_plugins (Demo.imports false) Demo.fresh).2
  = ["[SP] Loaded plugins:" +:+ PyStr.nl +:+ rule +:+ PyStr.nl +:+ PyStr.nl
     +:+ "alpha:" +:+ PyStr.nl
     +:+ PyStr.tab +:+ "author:" +:+ PyStr.nl
     +:+ PyStr.tab +:+ PyStr.tab +:+ "me" +:+ PyStr.nl
     +:+ PyStr.tab +:+ "cvar:" +:+ PyStr.nl
     +:+ PyStr.tab +:+ PyStr.tab +:+ "alpha_version:" +:+ PyStr.nl
     +:+ PyStr.tab +:+ PyStr.tab +:+ PyStr.tab +:+ "Version: 1.0" +:+ PyStr.nl
     +:+ PyStr.nl
     +:+ "mu" +:+ PyStr.nl +:+ PyStr.nl
     +:+ "zulu" +:+ PyStr.nl +:+ PyStr.nl
     +:+ rule].
Proof. by vm_compute. Qed.

(** * Further properties of the routines *)

Section Runs.
Context (I : Imports).
Import PyStr PyStrFacts.

(** A guarded Sphinx call whose two branches log a message. *)
Lemma try_run v project args run ok err (w : World I) :
  try_except_else (sphinx I v project args run) (log_message err)
    (log_message ok) w
  = (Returns tt, Run.after_call w v project args (run (disk w)) ok err).
Proof.
  unfold try_except_else, sphinx, Run.after_call.
  by destruct (run (disk w)) as [[e|] d'].
Qed.

(** X1: Create on a project that does not exist yet: [create] is called
    once, with the team, the title and the version for Source.Python and
    with the author Unknown for a custom package or a plugin, on the
    project of the package path and the documentation path of the
    category; the routine returns and logs the message of the creation
    or, when [create] raised, of the failure, and the disk is the one
    [create] left. *)
Theorem create_runs (package : string) (w : World I) :
  let sp := mkProject (SP_PACKAGES_PATH I) (SP_DOCS_PATH I) in
  let cp := mkProject (Path.join (CUSTOM_PACKAGES_PATH I) package)
              (Path.join (CUSTOM_PACKAGES_DOCS_PATH I) package) in
  let pp := mkProject (Path.join (PLUGIN_PATH I) package)
              (Path.join (PLUGIN_DOCS_PATH I) package) in
  let team := ["Source.Python Development Team"; "Source.Python"; VERSION I] in
  (project_exists I sp (disk w) = false ->
   _create_source_python_docs I w
   = (Returns tt,
      Run.after_call w Create sp team (sphinx_create I sp team (disk w))
        "Sphinx project has been created for Source.Python."
        "An occured while creating Sphinx project for Source.Python."))
  /\ (project_exists I cp (disk w) = false ->
      _create_custom_package_docs I package w
      = (Returns tt,
         Run.after_call w Create cp ["Unknown"]
           (sphinx_create I cp ["Unknown"] (disk w))
           ("Sphinx project has been created for custom package "
            +:+ dq +:+ package +:+ dq +:+ ".")
           ("An error occured while creating Sphinx project for custom package "
            +:+ dq +:+ package +:+ dq +:+ ".")))
  /\ (project_exists I pp (disk w) = false ->
      _create_plugin_docs I package w
      = (Returns tt,
         Run.after_call w Create pp ["Unknown"]
           (sphinx_create I pp ["Unknown"] (disk w))
           ("Sphinx project has been created for plugin "
            +:+ dq +:+ package +:+ dq +:+ ".")
           ("An error occured while creating Sphinx project for plugin "
            +:+ dq +:+ package +:+ dq +:+ "."))).
Proof.
  intros sp cp pp team. repeat split; intros Hex.
  - unfold _create_source_python_docs. fold sp team.
    unfold bind. rewrite exists_run, Hex. apply try_run.
  - unfold _create_custom_package_docs. fold cp.
    unfold bind. rewrite exists_run, Hex. apply try_run.
  - unfold _create_plugin_docs. fold pp.
    unfold bind. rewrite exists_run, Hex. apply try_run.
Qed.

(** X2: Generate and build on an existing project of a custom package or
    of a plugin: the method is called once; the routine returns and logs
    the message of the success or, when the method raised, of the
    failure; the disk is the one the method left, whatever the outcome. *)
Theorem generate_build_runs (package : string) (w : World I) :
  let cp := mkProject (Path.join (CUSTOM_PACKAGES_PATH I) package)
              (Path.join (CUSTOM_PACKAGES_DOCS_PATH I) package) in
  let pp := mkProject (Path.join (PLUGIN_PATH I) package)
              (Path.join (PLUGIN_DOCS_PATH I) package) in
  (project_exists I cp (disk w) = true ->
   _generate_custom_package_docs I package w
   = (Returns tt,
      Run.after_call w Generate cp []
        (sphinx_generate_project_files I cp (disk w))
        ("Project files have been generated for custom package "
         +:+ dq +:+ package +:+ dq +:+ ".")
        ("An error occured while generating project files for custom package "
         +:+ dq +:+ package +:+ dq +:+ "."))
   /\ _build_custom_package_docs I package w
      = (Returns tt,
         Run.after_call w Build cp [] (sphinx_build I cp (disk w))
           ("Project files have been built for custom package "
            +:+ dq +:+ package +:+ dq +:+ ".")
           ("An error occured while building project files for custom package "
            +:+ dq +:+ package +:+ dq +:+ ".")))
  /\ (project_exists I pp (disk w) = true ->
      _generate_plugin_docs I package w
      = (Returns tt,
         Run.after_call w Generate pp []
           (sphinx_generate_project_files I pp (disk w))
           ("Project files have been generated for plugin "
            +:+ dq +:+ package +:+ dq +:+ ".")
           ("An error occured while generating project files for plugin "
            +:+ dq +:+ package +:+ dq +:+ "."))
      /\ _build_plugin_docs I package w
         = (Returns tt,
            Run.after_call w Build pp [] (sphinx_build I pp (disk w))
              ("Project files have been built for plugin "
               +:+ dq +:+ package +:+ dq +:+ ".")
              ("An error occured while building project files for plugin "
               +:+ dq +:+ package +:+ dq +:+ "."))).
Proof.
  intros cp pp. split; intros Hex; split.
  - unfold _generate_custom_package_docs. fold cp.
    unfold bind. rewrite exists_run, Hex. apply try_run.
  - unfold _build_custom_package_docs. fold cp.
    unfold bind. rewrite exists_run, Hex. apply try_run.
  - unfold _generate_plugin_docs. fold pp.
    unfold bind. rewrite exists_run, Hex. apply try_run.
  - unfold _build_plugin_docs. fold pp.
    unfold bind. rewrite exists_run, Hex. apply try_run.
Qed.

(** X3: Create twice: when the first create made the project (the tooling
    returned and the project exists on the disk it left), the second
    create calls nothing and changes nothing on the disk; it only adds
    the message that the project already exists. *)
Theorem create_twice (package : string) (w : World I) (d1 : disk_t) :
  let pp := mkProject (Path.join (PLUGIN_PATH I) package)
              (Path.join (PLUGIN_DOCS_PATH I) package) in
  project_exists I pp (disk w) = false ->
  sphinx_create I pp ["Unknown"] (disk w) = (None, d1) ->
  project_exists I pp d1 = true ->
  (do _ <- _create_plugin_docs I package; _create_plugin_docs I package) w
  = (Returns tt,
     mkWorld d1 (manager w)
       (logged w
        ++ ["Sphinx project has been created for plugin "
            +:+ dq +:+ package +:+ dq +:+ ".";
            "Sphinx project already exists for plugin "
            +:+ dq +:+ package +:+ dq +:+ "."])
       (sphinx_calls w ++ [mkCall Create pp ["Unknown"] None])
       (dump_calls w) (delays w)).
Proof.
  intros pp Habsent Hcreate Hexists.
  unfold bind at 1. unfold _create_plugin_docs at 1. fold pp.
  unfold bind at 1. rewrite exists_run, Habsent. cbv beta iota. unfold create, generate_project_files, build. rewrite try_run, Hcreate.
  unfold _create_plugin_docs. fold pp. unfold bind.
  rewrite exists_run. cbn [Run.after_call disk fst snd]. rewrite Hexists.
  cbv beta iota. unfold log_message. cbn. by rewrite <- List.app_assoc.
Qed.

(** X4: Create, generate and build in this order on a plugin without a
    project: when each method returns and the project exists on the disk
    that create and generate leave, the three methods are called once
    each, in this order and each on the disk the one before left, and the
    three success messages are logged. *)
Theorem lifecycle_in_order (package : string) (w : World I)
    (d1 d2 d3 : disk_t) :
  let pp := mkProject (Path.join (PLUGIN_PATH I) package)
              (Path.join (PLUGIN_DOCS_PATH I) package) in
  project_exists I pp (disk w) = false ->
  sphinx_create I pp ["Unknown"] (disk w) = (None, d1) ->
  project_exists I pp d1 = true ->
  sphinx_generate_project_files I pp d1 = (None, d2) ->
  project_exists I pp d2 = true ->
  sphinx_build I pp d2 = (None, d3) ->
  (do _ <- _create_plugin_docs I package;
   do _ <- _generate_plugin_docs I package;
   _build_plugin_docs I package) w
  = (Returns tt,
     mkWorld d3 (manager w)
       (logged w
        ++ ["Sphinx project has been created for plugin "
            +:+ dq +:+ package +:+ dq +:+ ".";
            "Project files have been generated for plugin "
            +:+ dq +:+ package +:+ dq +:+ ".";
            "Project files have been built for plugin "
            +:+ dq +:+ package +:+ dq +:+ "."])
       (sphinx_calls w
        ++ [mkCall Create pp ["Unknown"] None; mkCall Generate pp [] None;
            mkCall Build pp [] None])
       (dump_calls w) (delays w)).
Proof.
  intros pp Habsent Hcreate Hex1 Hgen Hex2 Hbuild.
  unfold bind at 1. unfold _create_plugin_docs. fold pp.
  unfold bind at 1. rewrite exists_run, Habsent. cbv beta iota. unfold create, generate_project_files, build. rewrite try_run, Hcreate.
  unfold bind at 1. unfold _generate_plugin_docs. fold pp.
  unfold bind at 1. rewrite exists_run. cbn [Run.after_call disk fst snd].
  rewrite Hex1. cbv beta iota. unfold create, generate_project_files, build. rewrite try_run.
  cbn [Run.after_call disk fst snd]. rewrite Hgen.
  unfold _build_plugin_docs. fold pp.
  unfold bind at 1. rewrite exists_run. cbn [Run.after_call disk fst snd].
  rewrite Hex2. cbv beta iota. unfold create, generate_project_files, build. rewrite try_run.
  cbn [Run.after_call disk fst snd]. rewrite Hbuild.
  unfold Run.after_call. cbn. by rewrite <- !List.app_assoc.
Qed.

End Runs.

(** ** Lines *)

Module LineFacts.
Import PyStr PyStrFacts.

Lemma no_lf_app s t :
  Run.no_lf (s +:+ t) = Run.no_lf s && Run.no_lf t.
Proof.
  induction s as [|c s IH]; [reflexivity|].
  rewrite app_cons. cbn [Run.no_lf]. by rewrite IH, andb_assoc.
Qed.

Lemma no_space_no_lf s : no_space s = true -> Run.no_lf s = true.
Proof.
  induction s as [|c s IH]; [done|]. cbn [no_space Run.no_lf].
  intros [Hc Hs]%andb_true_iff. rewrite (IH Hs), andb_true_r.
  destruct (Ascii.eqb_spec c LF) as [->|]; [|done]. by vm_compute in Hc.
Qed.

Lemma readlines_complete body rest :
  Run.no_lf body = true ->
  readlines (body +:+ nl +:+ rest) = (body +:+ nl) :: readlines rest.
Proof.
  induction body as [|c body IH]; intros Hno.
  - rewrite !app_nil_l. unfold nl. rewrite app_cons, app_nil_l.
    cbn [readlines]. by rewrite Ascii.eqb_refl.
  - cbn [Run.no_lf] in Hno. apply andb_true_iff in Hno as [Hc Hno].
    rewrite !app_cons. cbn [readlines]. rewrite (IH Hno).
    by destruct (Ascii.eqb c LF).
Qed.

Lemma readlines_partial l :
  l <> EmptyString -> Run.no_lf l = true -> readlines l = [l].
Proof.
  induction l as [|c l IH]; [done|]. intros _ Hno.
  cbn [Run.no_lf] in Hno. apply andb_true_iff in Hno as [Hc Hno].
  cbn [readlines]. destruct (Ascii.eqb c LF); [done|].
  destruct l as [|c' l]; [done|]. by rewrite IH.
Qed.

(** Reading back lines that were written one after the other. *)
Lemma readlines_lines_ok ls : Run.lines_ok ls -> readlines (cat ls) = ls.
Proof.
  induction ls as [|l ls IH]; [done|]. cbn [Run.lines_ok cat].
  destruct ls as [|l2 ls].
  - cbn [cat]. rewrite app_nil_r. intros [(body & -> & Hno)|[Hne Hno]].
    + rewrite <- (app_nil_r (body +:+ nl)), app_assoc.
      by rewrite readlines_complete.
    + by apply readlines_partial.
  - intros [(body & -> & Hno) Hok].
    by rewrite app_assoc, readlines_complete, IH.
Qed.

Lemma complete_cons c l :
  Ascii.eqb c LF = false -> Run.complete l -> Run.complete (String c l).
Proof.
  intros Hc (body & -> & Hno). exists (String c body). split; [done|].
  cbn [Run.no_lf]. by rewrite Hc, Hno.
Qed.

Lemma lines_ok_readlines s : Run.lines_ok (readlines s).
Proof.
  induction s as [|c s IH]; [done|]. cbn [readlines].
  destruct (Ascii.eqb c LF) eqn:Hc.
  - assert (Hnl : Run.complete (String c EmptyString)).
    { exists EmptyString. apply Ascii.eqb_eq in Hc as ->. by split. }
    cbn [Run.lines_ok]. destruct (readlines s); [by left|done].
  - destruct (readlines s) as [|l ls].
    + right. split; [done|]. cbn [Run.no_lf]. by rewrite Hc.
    + cbn [Run.lines_ok] in *. destruct ls as [|l2 ls].
      * destruct IH as [Hl|[Hne Hno]].
        -- left. by apply complete_cons.
        -- right. split; [done|]. cbn [Run.no_lf]. by rewrite Hc, Hno.
      * destruct IH as [Hl Hok]. split; [by apply complete_cons|done].
Qed.

Lemma span_word_app word rest :
  no_space word = true ->
  span_word (word +:+ String " " rest) = (word, String " " rest).
Proof.
  induction word as [|c word IH]; intros Hw.
  - by rewrite app_nil_l.
  - cbn [no_space] in Hw. apply andb_true_iff in Hw as [Hc Hw].
    rewrite app_cons. cbn [span_word].
    destruct (isspace c); [done|]. by rewrite (IH Hw).
Qed.

Lemma span_word_prefix p l :
  no_space p = true -> String.prefix p l = true ->
  String.prefix p (span_word l).1 = true.
Proof.
  intros Hp [b ->]%prefix_inv. induction p as [|c p IH].
  - by destruct (span_word _).1.
  - cbn [no_space] in Hp. apply andb_true_iff in Hp as [Hc Hp].
    rewrite app_cons. cbn [span_word]. destruct (isspace c); [done|].
    specialize (IH Hp). destruct (span_word (p +:+ b)) as [w r].
    cbn [fst] in *. cbn [String.prefix]. by destruct (ascii_dec c c).
Qed.

Lemma span_word_no_space l : no_space (span_word l).1 = true.
Proof.
  induction l as [|c l IH]; [done|]. cbn [span_word].
  destruct (isspace c) eqn:Hc; [done|].
  destruct (span_word l) as [w r]. cbn [fst no_space] in *.
  by rewrite Hc, IH.
Qed.

(** A rewritten line is rewritten to itself. *)
Lemma conf_line_idempotent version line :
  Layout.conf_line version (Layout.conf_line version line)
  = Layout.conf_line version line.
Proof.
  unfold Layout.conf_line at 2.
  destruct (startswith_any line ["version"; "release"]) eqn:Hstart;
    [|unfold Layout.conf_line; by rewrite Hstart].
  set (word := (span_word line).1).
  assert (Hword : no_space word = true) by apply span_word_no_space.
  assert (Hstart' : startswith_any word ["version"; "release"] = true).
  { unfold startswith_any, startswith in *. cbn [existsb] in *.
    rewrite orb_false_r in *.
    apply orb_true_iff in Hstart as [H|H]; apply orb_true_iff; [left|right];
      by apply span_word_prefix. }
  unfold Layout.conf_line.
  assert (Hagain : startswith_any
            (word +:+ " = ' " +:+ version +:+ "'" +:+ nl)
            ["version"; "release"] = true).
  { unfold startswith_any, startswith in *. cbn [existsb] in *.
    rewrite orb_false_r in *.
    apply orb_true_iff in Hstart' as [H|H]; apply orb_true_iff; [left|right];
      by apply ReplaceFacts.prefix_app_r. }
  rewrite Hagain.
  change (" = ' " +:+ version +:+ "'" +:+ nl)
    with (String " " ("= ' " +:+ version +:+ "'" +:+ nl)).
  rewrite (span_word_app word _ Hword), Hstart. reflexivity.
Qed.

(** A rewritten line is a complete line, or the partial line it was. *)
Lemma conf_line_complete version line :
  Run.no_lf version = true ->
  Run.complete line -> Run.complete (Layout.conf_line version line).
Proof.
  intros Hv Hline. unfold Layout.conf_line.
  destruct (startswith_any line ["version"; "release"]); [|done].
  exists ((span_word line).1 +:+ " = ' " +:+ version +:+ "'").
  split; [by rewrite !app_assoc|].
  rewrite !no_lf_app, Hv, (no_space_no_lf _ (span_word_no_space line)).
  reflexivity.
Qed.

Lemma conf_line_partial version line :
  Run.no_lf version = true ->
  Run.partial line ->
  Run.complete (Layout.conf_line version line)
  \/ Run.partial (Layout.conf_line version line).
Proof.
  intros Hv Hline. unfold Layout.conf_line.
  destruct (startswith_any line ["version"; "release"]); [|by right].
  left. exists ((span_word line).1 +:+ " = ' " +:+ version +:+ "'").
  split; [by rewrite !app_assoc|].
  rewrite !no_lf_app, Hv, (no_space_no_lf _ (span_word_no_space line)).
  reflexivity.
Qed.

Lemma lines_ok_conf_line version ls :
  Run.no_lf version = true ->
  Run.lines_ok ls -> Run.lines_ok (Layout.conf_line version <$> ls).
Proof.
  intros Hv. induction ls as [|l ls IH]; [done|].
  cbn [Run.lines_ok fmap list_fmap]. destruct ls as [|l2 ls].
  - cbn [fmap list_fmap]. intros [Hl|Hl].
    + left. by apply conf_line_complete.
    + by apply conf_line_partial.
  - intros [Hl Hok]. cbn [fmap list_fmap] in *.
    split; [by apply conf_line_complete|by apply IH].
Qed.

(** Rewriting the rewritten text of [conf.py] changes nothing. *)
Lemma conf_rewrite_stable version data :
  Run.no_lf version = true ->
  cat (Layout.conf_line version
         <$> readlines (cat (Layout.conf_line version <$> readlines data)))
  = cat (Layout.conf_line version <$> readlines data).
Proof.
  intros Hv. rewrite readlines_lines_ok.
  - f_equal. rewrite <- list_fmap_compose. apply list_fmap_ext.
    intros i l _. apply conf_line_idempotent.
  - apply lines_ok_conf_line; [done|apply lines_ok_readlines].
Qed.

End LineFacts.

(** ** The Source.Python routines at their edges *)

Section Edges.
Context (I : Imports).
Import PyStr PyStrFacts ReplaceFacts LineFacts.

(** The run of build for Source.Python on a readable [conf.py]. *)
Lemma build_source_python_run (w : World I) (entries : gmap string node) data :
  let project := mkProject (SP_PACKAGES_PATH I) (SP_DOCS_PATH I) in
  let sd := project_source_dir I project in
  project_exists I project (disk w) = true ->
  disk w !! sd = Some entries ->
  entries !! "conf.py" = Some (File data) ->
  _build_source_python_docs I w
  = try_except_else (build I project)
      (log_message
         "An error occured while building project files for Source.Python.")
      (log_message "Project files have been built for Source.Python.")
      (with_disk w
         (<[sd := <["conf.py" :=
                     File (cat (Layout.conf_line (VERSION I)
                                  <$> readlines data))]> entries]> (disk w))).
Proof.
  intros project sd Hex Hsd Hconf.
  unfold _build_source_python_docs. fold project sd.
  unfold bind at 1. rewrite exists_run, Hex.
  unfold bind at 1. unfold Path.read_text.
  rewrite (lookup_entry_Some _ sd "conf.py" entries Hsd), Hconf.
  unfold bind at 1.
  rewrite (open_w_step I w sd "conf.py" entries data Hsd Hconf).
  unfold bind at 1.
  rewrite (update_version_loop I (readlines data) sd "conf.py" _
             (<["conf.py" := File EmptyString]> entries) EmptyString);
    [|apply lookup_insert_eq|apply lookup_insert_eq].
  cbn [with_disk disk manager logged sphinx_calls dump_calls delays].
  by rewrite !insert_insert_eq, app_nil_l.
Qed.

(** X5: Build again: on a [conf.py] that the rewriting of build produced
    (with a version that has no line feed) the rewriting changes nothing,
    so [build] is called on the disk as it stands and the routine is the
    guarded call alone. *)
Theorem build_source_python_again (w : World I)
    (entries : gmap string node) (data : string) :
  let project := mkProject (SP_PACKAGES_PATH I) (SP_DOCS_PATH I) in
  let sd := project_source_dir I project in
  Run.no_lf (VERSION I) = true ->
  project_exists I project (disk w) = true ->
  disk w !! sd = Some entries ->
  entries !! "conf.py"
  = Some (File (cat (Layout.conf_line (VERSION I) <$> readlines data))) ->
  _build_source_python_docs I w
  = (Returns tt,
     Run.after_call w Build project [] (sphinx_build I project (disk w))
       "Project files have been built for Source.Python."
       "An error occured while building project files for Source.Python.").
Proof.
  intros project sd Hv Hex Hsd Hconf.
  rewrite (build_source_python_run w entries _ Hex Hsd Hconf).
  fold project sd. rewrite (conf_rewrite_stable _ _ Hv).
  rewrite (insert_id entries _ _ Hconf), (insert_id (disk w) _ _ Hsd).
  rewrite with_disk_same. apply try_run.
Qed.

(** X6: Build for Source.Python without a readable [conf.py]: the
    exception of [open] leaves the routine before [build] is called;
    nothing is logged and the disk is untouched. *)
Theorem build_source_python_unreadable_conf (w : World I) :
  let project := mkProject (SP_PACKAGES_PATH I) (SP_DOCS_PATH I) in
  let conf := (project_source_dir I project, "conf.py") in
  project_exists I project (disk w) = true ->
  (Path.lookup_entry (disk w) conf = None ->
   _build_source_python_docs I w
   = (Raises (FileNotFoundError (Path.join conf.1 conf.2)), w))
  /\ (Path.lookup_entry (disk w) conf = Some Directory ->
      _build_source_python_docs I w
      = (Raises (IsADirectoryError (Path.join conf.1 conf.2)), w)).
Proof.
  intros project conf Hex.
  split; intros Hconf; unfold _build_source_python_docs; fold project;
    unfold bind at 1; rewrite exists_run, Hex;
    unfold bind at 1; unfold Path.read_text; fold conf; by rewrite Hconf.
Qed.

(** X7: Generate for Source.Python, when it goes wrong.  If
    [generate_project_files] raises, the failure is logged and no file is
    rewritten: the disk is the one the call left.  If it returns but the
    project source directory does not exist, the exception of the listing
    leaves the routine after the recorded call, and nothing is logged. *)
Theorem generate_source_python_failures (w : World I) (d1 : disk_t) :
  let project := mkProject (SP_PACKAGES_PATH I) (SP_DOCS_PATH I) in
  let sd := project_source_dir I project in
  project_exists I project (disk w) = true ->
  (forall e, sphinx_generate_project_files I project (disk w) = (Some e, d1) ->
     _generate_source_python_docs I w
     = (Returns tt,
        mkWorld d1 (manager w)
          (logged w
           ++ ["An error occured while generating project files for Source.Python"])
          (sphinx_calls w ++ [mkCall Generate project [] (Some e)])
          (dump_calls w) (delays w)))
  /\ (sphinx_generate_project_files I project (disk w) = (None, d1) ->
      d1 !! sd = None ->
      _generate_source_python_docs I w
      = (Raises (FileNotFoundError sd),
         mkWorld d1 (manager w) (logged w)
           (sphinx_calls w ++ [mkCall Generate project [] None])
           (dump_calls w) (delays w))).
Proof.
  intros project sd Hex. split.
  - intros e Hgen. unfold _generate_source_python_docs. fold project.
    unfold bind at 1. rewrite exists_run, Hex.
    unfold try_except_else, generate_project_files, sphinx. by rewrite Hgen.
  - intros Hgen Hsd. unfold _generate_source_python_docs. fold project sd.
    unfold bind at 1. rewrite exists_run, Hex.
    unfold try_except_else, generate_project_files, sphinx. rewrite Hgen.
    unfold bind, Path.files, bind, Path.listdir. cbn [disk]. by rewrite Hsd.
Qed.


End Edges.

(** ** The category tests and the plugin list, in full *)

Section Tests.
Context (I : Imports).
Import PyStr PyStrFacts.

(** X9: The two tests that list a directory.  [is_custom_package] holds
    exactly when the package is the name without extension of an entry,
    file or directory, of the custom package directory; [is_plugin]
    exactly when it is that of a sub-directory of the plugin directory,
    files not counting.  Neither changes anything.  When the directory
    does not exist, the exception of the listing leaves the test. *)
Theorem category_tests (package : string) (w : World I) :
  (forall ce : gmap string node,
     disk w !! CUSTOM_PACKAGES_PATH I = Some ce ->
     exists b, is_custom_package I package w = (Returns b, w)
       /\ (b = true <->
           exists name, is_Some (ce !! name)
             /\ Path.namebase (CUSTOM_PACKAGES_PATH I, name) = package))
  /\ (forall pe : gmap string node,
        disk w !! PLUGIN_PATH I = Some pe ->
        exists b, is_plugin I package w = (Returns b, w)
          /\ (b = true <->
              exists name, pe !! name = Some Directory
                /\ Path.namebase (PLUGIN_PATH I, name) = package))
  /\ (disk w !! CUSTOM_PACKAGES_PATH I = None ->
      is_custom_package I package w
      = (Raises (FileNotFoundError (CUSTOM_PACKAGES_PATH I)), w))
  /\ (disk w !! PLUGIN_PATH I = None ->
      is_plugin I package w
      = (Raises (FileNotFoundError (PLUGIN_PATH I)), w)).
Proof.
  split; [|split; [|split]].
  - intros ce Hce.
    destruct (listdir_entries I (CUSTOM_PACKAGES_PATH I) w ce Hce)
      as (ps & Hlist & Hps).
    eexists. split.
    + unfold is_custom_package, bind. rewrite Hlist. reflexivity.
    + rewrite bool_decide_eq_true, list_elem_of_fmap. split.
      * intros ([d name] & Hbase & [Hd Hin]%Hps). cbn [fst snd] in *.
        subst d. eauto.
      * intros (name & Hname & Hbase).
        exists (CUSTOM_PACKAGES_PATH I, name). split; [done|]. by apply Hps.
  - intros pe Hpe.
    destruct (listdir_entries I (PLUGIN_PATH I) w pe Hpe)
      as (ps & Hlist & Hps).
    eexists. split.
    + unfold is_plugin, Path.dirs, bind. rewrite Hlist. reflexivity.
    + rewrite bool_decide_eq_true, list_elem_of_fmap. split.
      * intros ([d name] & Hbase & [Hdir [Hd Hin]%Hps]%list_elem_of_filter).
        cbn [fst snd] in *. subst d.
        apply (isdir_entries _ _ pe) in Hdir; [|done]. eauto.
      * intros (name & Hname & Hbase).
        exists (PLUGIN_PATH I, name). split; [done|].
        apply list_elem_of_filter. split.
        -- by apply (isdir_entries _ _ pe).
        -- apply Hps. cbn [fst snd]. rewrite Hname. eauto.
  - intros Hce. unfold is_custom_package, bind, Path.listdir. by rewrite Hce.
  - intros Hpe. unfold is_plugin, Path.dirs, bind, Path.listdir.
    by rewrite Hpe.
Qed.

(** X10: A valid action on a package other than source-python when a
    directory to list is missing: the exception of the listing leaves
    [docs_handler]; nothing is logged, nothing is called, nothing
    changes. *)
Theorem docs_handler_missing_directory (action package : string)
    (w : World I) :
  action = "create" \/ action = "generate" \/ action = "build" ->
  package <> "source-python" ->
  (disk w !! CUSTOM_PACKAGES_PATH I = None ->
   docs_handler I action package w
   = (Raises (FileNotFoundError (CUSTOM_PACKAGES_PATH I)), w))
  /\ (forall ce : gmap string node,
        disk w !! CUSTOM_PACKAGES_PATH I = Some ce ->
        (forall name, is_Some (ce !! name) ->
           Path.namebase (CUSTOM_PACKAGES_PATH I, name) <> package) ->
        disk w !! PLUGIN_PATH I = None ->
        docs_handler I action package w
        = (Raises (FileNotFoundError (PLUGIN_PATH I)), w)).
Proof.
  intros Hact Hsp. split.
  - intros Hce.
    destruct Hact as [->|[->| ->]];
      [rewrite docs_handler_create; unfold _create_sphinx_project
      |rewrite docs_handler_generate; unfold _generate_sphinx_project
      |rewrite docs_handler_build; unfold _build_sphinx_project];
      rewrite (is_source_python_false _ Hsp);
      unfold bind, is_custom_package, bind, Path.listdir; by rewrite Hce.
  - intros ce Hce Hnone Hpe.
    destruct Hact as [->|[->| ->]];
      [rewrite docs_handler_create; unfold _create_sphinx_project
      |rewrite docs_handler_generate; unfold _generate_sphinx_project
      |rewrite docs_handler_build; unfold _build_sphinx_project];
      rewrite (is_source_python_false _ Hsp); unfold bind at 1;
      rewrite (is_custom_package_false I package w ce Hce Hnone);
      unfold bind, is_plugin, Path.dirs, bind, Path.listdir; by rewrite Hpe.
Qed.

Lemma before_last_dot_no_dot ext :
  Run.no_dot ext = true -> Path.before_last_dot ext = None.
Proof.
  induction ext as [|c ext IH]; [done|]. cbn [Run.no_dot Path.before_last_dot].
  intros [Hc Hext]%andb_true_iff. rewrite (IH Hext).
  by destruct (Ascii.eqb c ".").
Qed.

Lemma before_last_dot_app stem ext :
  Run.no_dot ext = true ->
  Path.before_last_dot (stem +:+ "." +:+ ext) = Some stem.
Proof.
  intros Hext. induction stem as [|c stem IH].
  - rewrite app_nil_l.
    change ("." +:+ ext) with (String "."%char ext).
    cbn [Path.before_last_dot]. by rewrite (before_last_dot_no_dot _ Hext).
  - rewrite app_cons. cbn [Path.before_last_dot]. by rewrite IH.
Qed.

(** X11: A custom package that is one module file: a file named by the
    package, a dot and an extension without dots in the custom package
    directory makes the package (a name that is not made of dots only) a
    custom package; a name without dots is recognised by an entry of
    exactly that name. *)
Theorem custom_package_by_file (package ext : string) (w : World I)
    (ce : gmap string node) :
  disk w !! CUSTOM_PACKAGES_PATH I = Some ce ->
  (Path.all_dots package = false -> Run.no_dot ext = true ->
   is_Some (ce !! (package +:+ "." +:+ ext)) ->
   is_custom_package I package w = (Returns true, w))
  /\ (Run.no_dot package = true -> is_Some (ce !! package) ->
      is_custom_package I package w = (Returns true, w)).
Proof.
  intros Hce. split.
  - intros Hdots Hext Hentry.
    apply (is_custom_package_true I package w ce _ Hce Hentry).
    unfold Path.namebase. cbn [snd].
    by rewrite (before_last_dot_app _ _ Hext), Hdots.
  - intros Hdot Hentry.
    apply (is_custom_package_true I package w ce _ Hce Hentry).
    unfold Path.namebase. cbn [snd].
    by rewrite (before_last_dot_no_dot _ Hdot).
Qed.

Lemma plugins_loop_returns mgr names message :
  (forall name, name ∈ names -> name ∈ mgr.*1) ->
  exists result, plugins_loop mgr names message = Returns result.
Proof.
  revert message. induction names as [|name names IH]; intros message Hin.
  - by eexists.
  - cbn [plugins_loop].
    destruct (getitem_is_Some mgr name) as [info ->].
    { apply Hin, list_elem_of_here. }
    apply IH. intros n Hn. by apply Hin, list_elem_of_further.
Qed.

(** X12: [print_plugins] never raises: every name it looks up comes from
    the manager, so whatever the manager holds the command returns after
    logging one message and changes nothing else.  With no plugin loaded
    the message is the header, the blank line and the closing rule. *)
Theorem print_plugins_returns (w : World I) :
  (exists message, print_plugins I w = log_message message w)
  /\ (manager w = [] ->
      print_plugins I w
      = log_message (prefix I +:+ Plugins_string I +:+ nl +:+ rule +:+ nl
                     +:+ nl +:+ rule) w).
Proof.
  split.
  - unfold print_plugins.
    destruct (plugins_loop_returns (manager w) (sorted (manager w).*1)
                (prefix I +:+ Plugins_string I +:+ nl +:+ mul "=" 61 +:+ nl
                 +:+ nl)) as [result ->]; [|by eexists].
    intros name Hname. revert Hname. unfold sorted.
    by rewrite merge_sort_Permutation.
  - intros Hempty. unfold print_plugins. rewrite Hempty. cbn.
    unfold rule. by rewrite !app_assoc.
Qed.

End Tests.

(** ** What [docs_handler] does on every run *)

Section Invariants.
Context (I : Imports).
Import PyStr PyStrFacts.

Lemma tidy_log_message n msg (w : World I) :
  Run.tidy n w (log_message msg w).
Proof.
  repeat split; cbn; [|by exists msg].
  exists []. split; [by rewrite List.app_nil_r|cbn; lia].
Qed.

(** After a step that acts on the disk only. *)
Lemma tidy_bind {A} n (m : M I A) (k : A -> M I unit) (w : World I) :
  disk_only m ->
  (forall a w1, Run.tidy n w1 (k a w1)) ->
  Run.tidy n w (bind m k w).
Proof.
  intros Hm Hk. unfold bind. destruct (Hm w) as (Hmgr & Hl & Hc & Hd & Hdl).
  destruct (m w) as [[a|e] w1]; cbn [snd] in *.
  - destruct (Hk a w1) as (? & ? & ? & (cs & Hcs & Hlen) & Hlog).
    repeat split; try congruence.
    + exists cs. by rewrite <- Hc.
    + destruct (k a w1).1; [|congruence].
      destruct Hlog as [msg Hmsg]. exists msg. by rewrite <- Hl.
  - repeat split; cbn; try done.
    exists []. split; [by rewrite List.app_nil_r|cbn; lia].
Qed.

(** The guarded Sphinx call, when what follows it makes no call. *)
Lemma tidy_try v project args run err (orelse : M I unit) (w : World I) :
  (forall w1, Run.tidy 0 w1 (orelse w1)) ->
  Run.tidy 1 w
    (try_except_else (sphinx I v project args run) (log_message err) orelse w).
Proof.
  intros Helse. unfold try_except_else, sphinx.
  destruct (run (disk w)) as [[e|] d'].
  - repeat split; cbn; [|by exists err]. eexists. split; [done|cbn; lia].
  - match goal with |- Run.tidy _ _ (orelse ?w1) =>
      destruct (Helse w1) as (Hm & Hd & Hdl & (cs & Hcs & Hlen) & Hlog)
    end.
    cbn [manager dump_calls delays sphinx_calls logged] in *.
    destruct cs; [|cbn in Hlen; lia]. rewrite List.app_nil_r in Hcs.
    repeat split; try done.
    exists [mkCall v project args None]. split; [exact Hcs|cbn; lia].
Qed.

Ltac tidy_routine :=
  apply tidy_bind; [apply disk_only_exists_|];
  intros [] ?;
  repeat (apply tidy_bind;
          [first [ apply disk_only_read_text | apply disk_only_open_w
                 | apply disk_only_for_each; intros ?;
                   apply disk_only_update_version_line ]
          | intros ? ?]);
  first [ apply tidy_log_message
        | apply tidy_try; intros ?;
          repeat (apply tidy_bind;
                  [first [ apply disk_only_files
                         | apply disk_only_for_each; intros ?;
                           apply disk_only_strip_module_path ]
                  | intros ? ?]);
          apply tidy_log_message ].

(** X13: Whatever the action, the package and the world, [docs_handler]
    makes at most one Sphinx call, logs exactly one message when it
    returns and none when it raises, and leaves the plugin manager, the
    dump calls and the scheduled delays alone. *)
Theorem docs_handler_tidy (action package : string) (w : World I) :
  Run.tidy 1 w (docs_handler I action package w).
Proof.
  assert (Hverb : forall (sp : M I unit) (cu pl : string -> M I unit),
    (forall w, Run.tidy 1 w (sp w)) ->
    (forall w, Run.tidy 1 w (cu package w)) ->
    (forall w, Run.tidy 1 w (pl package w)) ->
    Run.tidy 1 w
      ((if is_source_python package then sp
        else bind (is_custom_package I package) (fun c =>
          if c then cu package
          else bind (is_plugin I package) (fun p =>
            if p then pl package
            else log_message (not_a_package package)))) w)).
  { intros sp cu pl Hsp Hcu Hpl.
    destruct (is_source_python package); [apply Hsp|].
    apply tidy_bind; [apply disk_only_is_custom_package|].
    intros [] w1; [apply Hcu|].
    apply tidy_bind; [apply disk_only_is_plugin|].
    intros [] w2; [apply Hpl|apply tidy_log_message]. }
  unfold docs_handler.
  destruct (String.eqb action "create");
    [|destruct (String.eqb action "generate");
      [|destruct (String.eqb action "build")]].
  - apply Hverb; intros w0;
      [ unfold _create_source_python_docs
      | unfold _create_custom_package_docs | unfold _create_plugin_docs ];
      tidy_routine.
  - apply Hverb; intros w0;
      [ unfold _generate_source_python_docs
      | unfold _generate_custom_package_docs | unfold _generate_plugin_docs ];
      tidy_routine.
  - apply Hverb; intros w0;
      [ unfold _build_source_python_docs
      | unfold _build_custom_package_docs | unfold _build_plugin_docs ];
      tidy_routine.
  - apply tidy_log_message.
Qed.

(** *** No [IndexError] leaves [docs_handler] *)

Lemma nie_ret {A} (a : A) : Run.no_index_error (I:=I) (ret a).
Proof. by intros w. Qed.

Lemma nie_log_message msg : Run.no_index_error (I:=I) (log_message msg).
Proof. by intros w. Qed.

Lemma nie_bind {A B} (m : M I A) (k : A -> M I B) :
  Run.no_index_error m -> (forall a, Run.no_index_error (k a)) ->
  Run.no_index_error (bind m k).
Proof.
  intros Hm Hk w. unfold bind. specialize (Hm w).
  destruct (m w) as [[a|e'] w1]; cbn [fst] in *.
  - apply Hk.
  - intros [= ->]. by apply Hm.
Qed.

Lemma nie_for_each {A} (l : list A) (body : A -> M I unit) :
  (forall x, Run.no_index_error (body x)) ->
  Run.no_index_error (for_each l body).
Proof.
  intros Hbody. induction l as [|x l IH]; cbn [for_each].
  - apply nie_ret.
  - apply nie_bind; [apply Hbody|by intros _].
Qed.

(** A [try] with a bare [except] raises only what its [else] raises:
    the handler here logs and returns. *)
Lemma nie_try (body : M I unit) err (orelse : M I unit) :
  Run.no_index_error orelse ->
  Run.no_index_error (try_except_else body (log_message err) orelse).
Proof.
  intros Helse w. unfold try_except_else.
  destruct (body w) as [[[]|e'] w1]; [apply Helse|done].
Qed.

Lemma nie_listdir d : Run.no_index_error (I:=I) (Path.listdir d).
Proof. intros w. unfold Path.listdir. by destruct (disk w !! d). Qed.

Lemma nie_read_text p : Run.no_index_error (I:=I) (Path.read_text p).
Proof.
  intros w. unfold Path.read_text.
  by destruct (Path.lookup_entry (disk w) p) as [[]|].
Qed.

Lemma nie_open_w p : Run.no_index_error (I:=I) (Path.open_w p).
Proof.
  intros w. unfold Path.open_w.
  destruct (disk w !! p.1) as [entries|]; [|done].
  by destruct (entries !! p.2) as [[]|].
Qed.

Lemma nie_write p text : Run.no_index_error (I:=I) (Path.write p text).
Proof.
  intros w. unfold Path.write.
  by destruct (Path.lookup_entry (disk w) p) as [[]|].
Qed.

Lemma nie_dirs d : Run.no_index_error (I:=I) (Path.dirs d).
Proof.
  unfold Path.dirs. apply nie_bind; [apply nie_listdir|]. intros ps.
  apply nie_bind; [done|]. intros dk. apply nie_ret.
Qed.

Lemma nie_files d suffix : Run.no_index_error (I:=I) (Path.files d suffix).
Proof.
  unfold Path.files. apply nie_bind; [apply nie_listdir|]. intros ps.
  apply nie_bind; [done|]. intros dk. apply nie_ret.
Qed.

(** The first word of a line is taken only of a line that starts with
    version or release, which has one. *)
Lemma nie_update_version_line p line :
  Run.no_index_error (update_version_line I p line).
Proof.
  unfold update_version_line.
  destruct (startswith_any line ["version"; "release"]) eqn:Hstart.
  - intros w. unfold bind at 1. unfold bind at 1.
    rewrite (first_word I line w Hstart). unfold ret. apply nie_write.
  - apply nie_bind; [apply nie_ret|]. intros l. apply nie_write.
Qed.

Lemma nie_strip_module_path p : Run.no_index_error (strip_module_path I p).
Proof.
  unfold strip_module_path. apply nie_bind; [apply nie_read_text|].
  intros data. apply nie_bind; [apply nie_open_w|]. intros _. apply nie_write.
Qed.

Lemma nie_exists_ project (k : bool -> M I unit) :
  (forall b, Run.no_index_error (k b)) ->
  Run.no_index_error (bind (exists_ I project) k).
Proof. intros Hk. apply nie_bind; [done|apply Hk]. Qed.

Ltac nie_routine :=
  apply nie_exists_; intros [];
  repeat first
    [ apply nie_log_message
    | apply nie_try
    | apply nie_read_text | apply nie_open_w | apply nie_files
    | apply nie_update_version_line | apply nie_strip_module_path
    | apply nie_for_each; intros ?
    | apply nie_bind; [|intros ?] ].

(** X14: No [IndexError] leaves [docs_handler].  The one subscript of
    the command, [line.split(maxsplit=1)[0]] in the rewriting of
    [conf.py], is evaluated only for a line that starts with version or
    release, and the split of such a line has a first element, which is
    not empty; an [IndexError] of the Sphinx tooling is caught with the
    other exceptions of the tooling. *)
Theorem docs_handler_no_index_error :
  (forall line,
     startswith_any line ["version"; "release"] = true ->
     exists word rest,
       split_maxsplit1 line = word :: rest /\ word <> EmptyString)
  /\ forall action package : string,
       Run.no_index_error (docs_handler I action package).
Proof.
  split.
  { intros line Hstart.
    pose proof (first_word I line (Demo.world ∅ []) Hstart) as Hfirst.
    destruct (split_maxsplit1 line) as [|word rest]; [done|].
    exists word, rest. split; [done|]. injection Hfirst as ->.
    intros Hempty.
    unfold startswith_any, startswith in Hstart. cbn [existsb] in Hstart.
    rewrite orb_false_r in Hstart.
    apply orb_true_iff in Hstart as [Hp|Hp];
      apply LineFacts.span_word_prefix in Hp; [|done| |done];
      by rewrite Hempty in Hp. }
  intros action package.
  assert (Hverb : forall (sp : M I unit) (cu pl : string -> M I unit),
    Run.no_index_error sp -> Run.no_index_error (cu package) ->
    Run.no_index_error (pl package) ->
    Run.no_index_error
      (if is_source_python package then sp
       else bind (is_custom_package I package) (fun c =>
         if c then cu package
         else bind (is_plugin I package) (fun p =>
           if p then pl package
           else log_message (not_a_package package))))).
  { intros sp cu pl Hsp Hcu Hpl.
    destruct (is_source_python package); [apply Hsp|].
    apply nie_bind.
    { unfold is_custom_package. apply nie_bind; [apply nie_listdir|].
      intros ps. apply nie_ret. }
    intros []; [apply Hcu|].
    apply nie_bind.
    { unfold is_plugin. apply nie_bind; [apply nie_dirs|].
      intros ps. apply nie_ret. }
    intros []; [apply Hpl|apply nie_log_message]. }
  unfold docs_handler.
  destruct (String.eqb action "create");
    [|destruct (String.eqb action "generate");
      [|destruct (String.eqb action "build")]].
  - apply Hverb;
      [ unfold _create_source_python_docs
      | unfold _create_custom_package_docs | unfold _create_plugin_docs ];
      nie_routine.
  - apply Hverb;
      [ unfold _generate_source_python_docs
      | unfold _generate_custom_package_docs | unfold _generate_plugin_docs ];
      nie_routine.
  - apply Hverb;
      [ unfold _build_source_python_docs
      | unfold _build_custom_package_docs | unfold _build_plugin_docs ];
      nie_routine.
  - apply nie_log_message.
Qed.

End Invariants.

Section PlainConf.
Context (I : Imports).
Import PyStr PyStrFacts LineFacts.


End PlainConf.

(** * The further properties on the small installation *)

Section MoreWitnesses.
Import PyStr PyStrFacts ReplaceFacts.


(** [sp docs create myplugin], twice. *)
Lemma create_twice_witness :
  project_exists (Demo.imports false) Demo2.plugin (disk Demo.fresh) = false
  /\ sphinx_create (Demo.imports false) Demo2.plugin ["Unknown"]
       (disk Demo.fresh) = (None, Demo2.disk1)
  /\ project_exists (Demo.imports false) Demo2.plugin Demo2.disk1 = true
  /\ logged
       ((do _ <- _create_plugin_docs (Demo.imports false) "myplugin";
         _create_plugin_docs (Demo.imports false) "myplugin") Demo.fresh).2
     = ["Sphinx project has been created for plugin "
        +:+ dq +:+ "myplugin" +:+ dq +:+ ".";
        "Sphinx project already exists for plugin "
        +:+ dq +:+ "myplugin" +:+ dq +:+ "."].
Proof.
  assert (H1 : project_exists (Demo.imports false) Demo2.plugin
                 (disk Demo.fresh) = false) by reflexivity.
  assert (H2 : sphinx_create (Demo.imports false) Demo2.plugin ["Unknown"]
                 (disk Demo.fresh) = (None, Demo2.disk1)) by reflexivity.
  assert (H3 : project_exists (Demo.imports false) Demo2.plugin Demo2.disk1
               = true) by reflexivity.
  split; [exact H1|]. split; [exact H2|]. split; [exact H3|].
  by rewrite (create_twice (Demo.imports false) "myplugin" Demo.fresh
                Demo2.disk1 H1 H2 H3).
Defined.

(** Create, generate and build [myplugin] from the fresh disk. *)
Lemma lifecycle_in_order_witness :
  project_exists (Demo.imports false) Demo2.plugin (disk Demo.fresh) = false
  /\ sphinx_create (Demo.imports false) Demo2.plugin ["Unknown"]
       (disk Demo.fresh) = (None, Demo2.disk1)
  /\ project_exists (Demo.imports false) Demo2.plugin Demo2.disk1 = true
  /\ sphinx_generate_project_files (Demo.imports false) Demo2.plugin
       Demo2.disk1 = (None, Demo2.disk2)
  /\ project_exists (Demo.imports false) Demo2.plugin Demo2.disk2 = true
  /\ sphinx_build (Demo.imports false) Demo2.plugin Demo2.disk2
     = (None, Demo2.disk3)
  /\ call_verb
     <$> sphinx_calls
           ((do _ <- _create_plugin_docs (Demo.imports false) "myplugin";
             do _ <- _generate_plugin_docs (Demo.imports false) "myplugin";
             _build_plugin_docs (Demo.imports false) "myplugin")
              Demo.fresh).2
     = [Create; Generate; Build].
Proof.
  assert (H1 : project_exists (Demo.imports false) Demo2.plugin
                 (disk Demo.fresh) = false) by reflexivity.
  assert (H2 : sphinx_create (Demo.imports false) Demo2.plugin ["Unknown"]
                 (disk Demo.fresh) = (None, Demo2.disk1)) by reflexivity.
  assert (H3 : project_exists (Demo.imports false) Demo2.plugin Demo2.disk1
               = true) by reflexivity.
  assert (H4 : sphinx_generate_project_files (Demo.imports false)
                 Demo2.plugin Demo2.disk1 = (None, Demo2.disk2))
    by reflexivity.
  assert (H5 : project_exists (Demo.imports false) Demo2.plugin Demo2.disk2
               = true) by reflexivity.
  assert (H6 : sphinx_build (Demo.imports false) Demo2.plugin Demo2.disk2
               = (None, Demo2.disk3)) by reflexivity.
  repeat (split; [assumption|]).
  by rewrite (lifecycle_in_order (Demo.imports false) "myplugin" Demo.fresh
                Demo2.disk1 Demo2.disk2 Demo2.disk3 H1 H2 H3 H4 H5 H6).
Defined.

(** Build on the rewritten [conf.py], with tooling that fails. *)
Lemma build_source_python_again_witness :
  Run.no_lf (VERSION (Demo.imports true)) = true
  /\ project_exists (Demo.imports true) Demo.sp (disk Demo2.rebuilt) = true
  /\ disk Demo2.rebuilt !! Demo.source_dir Demo.sp = Some Demo2.rebuilt_entries
  /\ Demo2.rebuilt_entries !! "conf.py"
     = Some (File (cat (Layout.conf_line (VERSION (Demo.imports true))
                          <$> readlines Demo.conf_py)))
  /\ disk (_build_source_python_docs (Demo.imports true) Demo2.rebuilt).2
     = disk Demo2.rebuilt.
Proof.
  assert (H1 : Run.no_lf (VERSION (Demo.imports true)) = true)
    by reflexivity.
  assert (H2 : project_exists (Demo.imports true) Demo.sp (disk Demo2.rebuilt)
               = true) by reflexivity.
  assert (H3 : disk Demo2.rebuilt !! Demo.source_dir Demo.sp
               = Some Demo2.rebuilt_entries) by reflexivity.
  assert (H4 : Demo2.rebuilt_entries !! "conf.py"
               = Some (File (cat (Layout.conf_line (VERSION (Demo.imports true))
                                    <$> readlines Demo.conf_py))))
    by reflexivity.
  repeat (split; [assumption|]).
  rewrite (build_source_python_again (Demo.imports true) Demo2.rebuilt
             Demo2.rebuilt_entries Demo.conf_py H1 H2 H3 H4).
  reflexivity.
Defined.

(** Build when the project directory has no source directory. *)
Lemma build_source_python_unreadable_conf_witness :
  project_exists (Demo.imports false) Demo.sp (disk Demo2.hollow) = true
  /\ _build_source_python_docs (Demo.imports false) Demo2.hollow
     = (Raises (FileNotFoundError "/docs/source-python/source/conf.py"),
        Demo2.hollow).
Proof.
  assert (H1 : project_exists (Demo.imports false) Demo.sp (disk Demo2.hollow)
               = true) by reflexivity.
  split; [exact H1|].
  destruct (build_source_python_unreadable_conf (Demo.imports false)
              Demo2.hollow H1) as [Hmissing _].
  rewrite Hmissing; reflexivity.
Defined.

(** Generate for Source.Python with tooling that fails. *)
Lemma generate_source_python_failures_witness :
  project_exists (Demo.imports true) Demo.sp (disk Demo.failing) = true
  /\ _generate_source_python_docs (Demo.imports true) Demo.failing
     = (Returns tt,
        mkWorld Demo.created_disk Demo.plugins
          ["An error occured while generating project files for Source.Python"]
          [mkCall Generate Demo.sp [] (Some (ToolError "generate"))] [] []).
Proof.
  assert (H1 : project_exists (Demo.imports true) Demo.sp (disk Demo.failing)
               = true) by reflexivity.
  split; [exact H1|].
  destruct (generate_source_python_failures (Demo.imports true) Demo.failing
              Demo.created_disk H1) as [Hfail _].
  by rewrite (Hfail (ToolError "generate")).
Defined.


(** A docs command on a disk without the custom package directory. *)
Lemma docs_handler_missing_directory_witness :
  "myplugin" <> "source-python"
  /\ disk Demo2.empty !! CUSTOM_PACKAGES_PATH (Demo.imports false) = None
  /\ docs_handler (Demo.imports false) "build" "myplugin" Demo2.empty
     = (Raises (FileNotFoundError "/packages/custom"), Demo2.empty).
Proof.
  assert (H1 : "myplugin" <> "source-python") by done.
  assert (H2 : disk Demo2.empty !! CUSTOM_PACKAGES_PATH (Demo.imports false)
               = None) by reflexivity.
  split; [exact H1|]. split; [exact H2|].
  destruct (docs_handler_missing_directory (Demo.imports false) "build"
              "myplugin" Demo2.empty) as [Hmissing _]; [by right; right|done|].
  by rewrite Hmissing.
Defined.

(** The module file [mypackage.py] makes [mypackage] a custom package. *)
Lemma custom_package_by_file_witness :
  disk Demo.fresh !! CUSTOM_PACKAGES_PATH (Demo.imports false)
  = Some Demo.custom_entries
  /\ is_Some (Demo.custom_entries !! ("mypackage" +:+ "." +:+ "py"))
  /\ is_custom_package (Demo.imports false) "mypackage" Demo.fresh
     = (Returns true, Demo.fresh).
Proof.
  assert (H1 : disk Demo.fresh !! CUSTOM_PACKAGES_PATH (Demo.imports false)
               = Some Demo.custom_entries) by reflexivity.
  assert (H2 : is_Some (Demo.custom_entries !! ("mypackage" +:+ "." +:+ "py"))).
  { exists (File "import x"). reflexivity. }
  split; [exact H1|]. split; [exact H2|].
  destruct (custom_package_by_file (Demo.imports false) "mypackage" "py"
              Demo.fresh Demo.custom_entries H1) as [Hfile _].
  by apply Hfile.
Defined.


End MoreWitnesses.
